(** * Task tracker: access control and query filtering

    A shallow embedding of the task-tracker REST API (package
    [task_tracker]): the permission classes, the task and user serializers,
    the filter sets and the views, over a relational store with two tables.

    Conventions of the embedding.
    - A table is a finite map from primary key to row; a model instance is a
      primary key together with its row ([Instance]).
    - A view is a computation in the monad [M]: it reads and writes the
      [Database] and may raise an [APIException], which the exception handler
      turns into a response.
    - Timestamps are instants, counted in microseconds since the epoch (UTC);
      calendar dates are day numbers since the epoch.
    - Text is a [string] of 8-bit characters; case folding is the ASCII one.
    - What the project configures but does not implement (the password
      validators, the e-mail and username validators, the password hasher,
      the regular-expression engine of the database, the date parser of the
      filter form, the time-zone setting) is gathered in the class
      [Framework].
    - Log lines are not part of the state: no view reads them back. *)

From Stdlib Require Import Ascii String.
From stdpp Require Import gmap strings list fin_maps pretty.

Open Scope Z_scope.

(** ** Text primitives (Python [str] methods and database text lookups) *)

Module text.

(** [str.lower] restricted to ASCII letters. *)
Definition lower_char (c : ascii) : ascii :=
  let n := nat_of_ascii c in
  if ((65 <=? n)%nat && (n <=? 90)%nat)%bool then ascii_of_nat (n + 32) else c.

Fixpoint lower (s : string) : string :=
  match s with
  | EmptyString => EmptyString
  | String c s' => String (lower_char c) (lower s')
  end.

(** [s.startswith(p)] *)
Fixpoint startswith (p s : string) : bool :=
  match p, s with
  | EmptyString, _ => true
  | String _ _, EmptyString => false
  | String a p', String b s' => if decide (a = b) then startswith p' s' else false
  end.

(** [sub in s] *)
Fixpoint contains (sub s : string) : bool :=
  startswith sub s ||
  match s with
  | EmptyString => false
  | String _ s' => contains sub s'
  end.

(** The ORM lookups [iexact], [icontains] and [istartswith]. *)
Definition iexact (value field : string) : bool :=
  bool_decide (lower field = lower value).
Definition icontains (value field : string) : bool :=
  contains (lower value) (lower field).
Definition istartswith (value field : string) : bool :=
  startswith (lower value) (lower field).

(** [s[:n]] *)
Fixpoint slice_to (n : nat) (s : string) : string :=
  match n, s with
  | O, _ => EmptyString
  | S _, EmptyString => EmptyString
  | S n', String c s' => String c (slice_to n' s')
  end.

(** [str.strip()] *)
Fixpoint lstrip (s : string) : string :=
  match s with
  | EmptyString => EmptyString
  | String c s' => if Ascii.is_space c then lstrip s' else s
  end.
Definition rstrip (s : string) : string := String.rev (lstrip (String.rev s)).
Definition strip (s : string) : string := rstrip (lstrip s).

(** [int(s)] on an optional minus sign followed by decimal digits. *)
Fixpoint int_digits (acc : option N) (s : string) : option N :=
  match s with
  | EmptyString => acc
  | String c s' =>
      match Ascii.is_nat c with
      | Some d => int_digits (Some (10 * default 0 acc + N.of_nat d)%N) s'
      | None => None
      end
  end.

Definition int (s : string) : option Z :=
  match s with
  | String "-" s' => (λ n, - Z.of_N n) <$> int_digits None s'
  | _ => Z.of_N <$> int_digits None s
  end.

(** [str(n)] *)
Definition str (n : Z) : string := pretty n.

End text.

(** ** What the framework and the settings provide *)

Class Framework := {
  (** [settings.TIME_ZONE], as the offset of local time from UTC in
      microseconds *)
  utcoffset : Z;
  (** the database's case-insensitive regular-expression match
      ([iregex] lookup): pattern, then text *)
  iregex : string → string → bool;
  (** [django.contrib.auth.password_validation.validate_password] *)
  validate_password : string → bool;
  (** the validators of [User.email] and [User.username] *)
  validate_email : string → bool;
  validate_username : string → bool;
  (** [django.contrib.auth.hashers.make_password] *)
  make_password : string → string;
  (** the date parser of the filter form ([forms.DateField]) *)
  parse_date : string → option Z;
}.

(** ** models.py and the framework's [User] model *)

Module models.

(** [django.contrib.auth.models.User]; the primary key is the table key. *)
Record User := {
  username : string;
  first_name : string;
  last_name : string;
  email : string;
  password : string;
  is_staff : bool;
  is_active : bool;
  is_superuser : bool;
}.

(** [class Task(models.Model)]; [user] holds the owner's primary key. *)
Record Task := {
  user : Z;
  description : string;
  completed : bool;
  creation_time : Z;
  updated_at : Z;
}.

Record Instance (R : Type) := { pk : Z; row : R }.
Global Arguments pk {R} _.
Global Arguments row {R} _.

Record Database := {
  User_objects : gmap Z User;
  Task_objects : gmap Z Task;
}.

(** The key an auto-incrementing primary key gives to the next row. *)
Definition next_pk {R} (table : gmap Z R) : Z :=
  1 + foldr Z.max 0 (map_to_list table).*1.

(** [Task.__str__] *)
Definition Task_str (self : Task) : string :=
  text.slice_to 50 (description self) +:+
  (if (50 <? String.length (description self))%nat then "..." else "").

(** [Task.objects.create(...)]: the row gets the next primary key;
    [auto_now_add] and [auto_now] stamp both timestamps. *)
Definition Task_objects_create (now : Z) (owner : Z) (text : string)
    (done : bool) (db : Database) : Instance Task * Database :=
  let r := {| user := owner; description := text; completed := done;
              creation_time := now; updated_at := now |} in
  let k := next_pk (Task_objects db) in
  ({| pk := k; row := r |},
   {| User_objects := User_objects db;
      Task_objects := <[k := r]> (Task_objects db) |}).

(** [Model.save] of a task read from the table: every column is written
    back and [auto_now] stamps [updated_at]. *)
Definition Task_save (now : Z) (self : Instance Task) (db : Database)
  : Instance Task * Database :=
  let r := row self in
  let r' := {| user := user r; description := description r;
               completed := completed r;
               creation_time := creation_time r;
               updated_at := now |} in
  ({| pk := pk self; row := r' |},
   {| User_objects := User_objects db;
      Task_objects := <[pk self := r']> (Task_objects db) |}).

(** [Task.toggle_completion] *)
Definition toggle_completion (now : Z) (self : Instance Task) (db : Database)
  : Instance Task * Database :=
  let r := row self in
  let self' := {| pk := pk self;
                  row := {| user := user r; description := description r;
                            completed := negb (completed r);
                            creation_time := creation_time r;
                            updated_at := updated_at r |} |} in
  Task_save now self' db.

(** [Model.delete] of a task. *)
Definition Task_delete (self : Instance Task) (db : Database) : Database :=
  {| User_objects := User_objects db;
     Task_objects := delete (pk self) (Task_objects db) |}.

(** [Model.delete] of a user: [on_delete=models.CASCADE] removes the
    tasks the user owns. *)
Definition User_delete (self : Instance User) (db : Database) : Database :=
  {| User_objects := delete (pk self) (User_objects db);
     Task_objects := filter (λ kv, user kv.2 ≠ pk self) (Task_objects db) |}.

(** What a permission class is asked about: an instance of either
    model. *)
Inductive Obj :=
| TaskObj (t : Instance Task)
| UserObj (u : Instance User).

End models.

(** ** The REST framework: requests, responses, exceptions, generic views *)

(** JSON values of a request body or of a response body. *)
Inductive Value :=
| VNull
| VBool (b : bool)
| VInt (n : Z)
| VStr (s : string).

Module Request.
Record t := {
  user : option (models.Instance models.User);
  data : gmap string Value;
  query_params : gmap string string;
}.
End Request.

Inductive Body :=
| NoBody
| Detail (message : string)
| Errors (errors : gmap string string)
| Data (fields : gmap string Value)
| Results (count : nat) (results : gmap Z (gmap string Value)).

Module Response.
Record t := { status_code : Z; data : Body }.
End Response.

Inductive APIException :=
| NotAuthenticated
| PermissionDenied (detail : string)
| Http404
| ValidationError (errors : gmap string string).

(** [rest_framework.views.exception_handler] *)
Definition exception_handler (exc : APIException) : Response.t :=
  match exc with
  | NotAuthenticated =>
      {| Response.status_code := 401;
         Response.data := Detail "Authentication credentials were not provided." |}
  | PermissionDenied detail =>
      {| Response.status_code := 403; Response.data := Detail detail |}
  | Http404 =>
      {| Response.status_code := 404; Response.data := Detail "Not found." |}
  | ValidationError errors =>
      {| Response.status_code := 400; Response.data := Errors errors |}
  end.

(** Views run in a state monad over the database with exceptions. *)
Inductive Result (A : Type) :=
| Return (a : A)
| Raise (exc : APIException).
Arguments Return {A} _.
Arguments Raise {A} _.

Definition M (A : Type) : Type := models.Database → Result A * models.Database.

#[export] Instance M_ret : MRet M := λ A a db, (Return a, db).
#[export] Instance M_bind : MBind M := λ A B f m db,
  match m db with
  | (Return a, db') => f a db'
  | (Raise exc, db') => (Raise exc, db')
  end.

Definition raise {A} (exc : APIException) : M A := λ db, (Raise exc, db).
Definition read_db : M models.Database := λ db, (Return db, db).
Definition lift {A} (f : models.Database → A * models.Database) : M A :=
  λ db, let '(a, db') := f db in (Return a, db').

(** A permission class: [has_permission] and [has_object_permission]. *)
Record Permission := {
  has_permission : Request.t → bool;
  has_object_permission : Request.t → models.Obj → bool;
}.

Definition AllowAny : Permission :=
  {| has_permission := λ _, true; has_object_permission := λ _ _, true |}.

Definition IsAuthenticated : Permission :=
  {| has_permission := λ request, bool_decide (is_Some (Request.user request));
     has_object_permission := λ _ _, true |}.

(** [APIView.permission_denied] *)
Definition permission_denied {A} (request : Request.t) : M A :=
  match Request.user request with
  | None => raise NotAuthenticated
  | Some _ => raise (PermissionDenied "You do not have permission to perform this action.")
  end.

(** [APIView.check_permissions] and [APIView.check_object_permissions] *)
Fixpoint check_permissions (classes : list Permission) (request : Request.t)
  : M unit :=
  match classes with
  | [] => mret ()
  | p :: rest =>
      if has_permission p request then check_permissions rest request
      else permission_denied request
  end.

Fixpoint check_object_permissions (classes : list Permission)
    (request : Request.t) (obj : models.Obj) : M unit :=
  match classes with
  | [] => mret ()
  | p :: rest =>
      if has_object_permission p request obj
      then check_object_permissions rest request obj
      else permission_denied request
  end.

(** [GenericAPIView.get_object]: look the key up in the view's queryset
    (404 when it is not there), then check the object permissions. *)
Definition get_object {R} (wrap : models.Instance R → models.Obj)
    (classes : list Permission) (get_queryset : Request.t → M (gmap Z R))
    (request : Request.t) (lookup : option Z) : M (models.Instance R) :=
  queryset ← get_queryset request;
  match lookup with
  | None => raise Http404
  | Some key =>
      match queryset !! key with
      | None => raise Http404
      | Some r =>
          let obj := {| models.pk := key; models.row := r |} in
          _ ← check_object_permissions classes request (wrap obj);
          mret obj
      end
  end.

(** [APIView.dispatch]: the view-level permission checks, then the handler;
    an exception becomes the response the exception handler builds. *)
Definition dispatch (classes : list Permission) (request : Request.t)
    (handler : M Response.t) (db : models.Database)
  : Response.t * models.Database :=
  match (_ ← check_permissions classes request; handler) db with
  | (Return response, db') => (response, db')
  | (Raise exc, db') => (exception_handler exc, db')
  end.

(** ** permissions.py *)

Module permissions.

(** [IsOwner.has_object_permission]: an object with a [user] attribute
    (a task) is compared through it, any other object (a user) directly.
    Model instances are equal when their primary keys are. *)
Definition IsOwner_has_object_permission (request : Request.t)
    (obj : models.Obj) : bool :=
  match obj with
  | models.TaskObj t =>
      bool_decide (Some (models.user (models.row t))
                   = models.pk <$> Request.user request)
  | models.UserObj u =>
      bool_decide (Some (models.pk u) = models.pk <$> Request.user request)
  end.

Definition IsOwner : Permission :=
  {| has_permission := λ _, true;
     has_object_permission := IsOwner_has_object_permission |}.

(** [IsOwnerOrStaff.has_object_permission]; an anonymous user is not
    staff. *)
Definition IsOwnerOrStaff_has_object_permission (request : Request.t)
    (obj : models.Obj) : bool :=
  if from_option (λ u, models.is_staff (models.row u)) false
       (Request.user request)
  then true
  else IsOwner_has_object_permission request obj.

Definition IsOwnerOrStaff : Permission :=
  {| has_permission := λ _, true;
     has_object_permission := IsOwnerOrStaff_has_object_permission |}.

End permissions.

(** ** Serializers of the REST framework *)

Module serializers.

(** A serializer field over rows of type [R]. [run_validation] is the
    field's conversion and validators on a supplied value (an error code
    on failure); [get_attribute] is its output value. *)
Record Field (R : Type) := {
  field_name : string;
  read_only : bool;
  write_only : bool;
  required : bool;
  default_value : option Value;
  run_validation : models.Database → Value → string + Value;
  get_attribute : models.Instance R → Value;
}.
Global Arguments field_name {R} _.
Global Arguments read_only {R} _.
Global Arguments write_only {R} _.
Global Arguments required {R} _.
Global Arguments default_value {R} _.
Global Arguments run_validation {R} _ _ _.
Global Arguments get_attribute {R} _ _.

(** [CharField.run_validation]: the value is trimmed; a blank one is an
    error unless [allow_blank]; booleans and null are not strings. *)
Definition CharField_run_validation (allow_blank : bool)
    (max_length : option nat) (validator : string → bool)
    (value : Value) : string + Value :=
  let check (s : string) : string + Value :=
    if bool_decide (s = "") then
      if allow_blank then inr (VStr "") else inl "blank"
    else if from_option (λ n, (n <? String.length s)%nat) false max_length
    then inl "max_length"
    else if validator s then inr (VStr s) else inl "invalid" in
  match value with
  | VNull => inl "null"
  | VBool _ => inl "invalid"
  | VInt n => check (text.str n)
  | VStr s => check (text.strip s)
  end.

(** [BooleanField.to_internal_value] *)
Definition BooleanField_run_validation (value : Value) : string + Value :=
  match value with
  | VBool b => inr (VBool b)
  | VInt 1 => inr (VBool true)
  | VInt 0 => inr (VBool false)
  | VStr s =>
      if bool_decide (s ∈ ["t"; "T"; "y"; "Y"; "yes"; "Yes"; "YES"; "true";
                           "True"; "TRUE"; "on"; "On"; "ON"; "1"])
      then inr (VBool true)
      else if bool_decide (s ∈ ["f"; "F"; "n"; "N"; "no"; "No"; "NO";
                                "false"; "False"; "FALSE"; "off"; "Off";
                                "OFF"; "0"])
      then inr (VBool false)
      else inl "invalid"
  | VNull => inl "null"
  | VInt _ => inl "invalid"
  end.

(** One step of [Serializer.to_internal_value]: a read-only field is
    skipped; an absent one is skipped on a partial update, an error when
    required, and otherwise takes its default when it has one. *)
Definition validate_field {R} (partial : bool) (db : models.Database)
    (data : gmap string Value) (field : Field R)
    (acc : gmap string string * gmap string Value)
  : gmap string string * gmap string Value :=
  if read_only field then acc
  else
    match data !! field_name field with
    | None =>
        if partial then acc
        else if required field
        then (<[field_name field := "required"]> acc.1, acc.2)
        else match default_value field with
             | Some v => (acc.1, <[field_name field := v]> acc.2)
             | None => acc
             end
    | Some value =>
        match run_validation field db value with
        | inl code => (<[field_name field := code]> acc.1, acc.2)
        | inr v => (acc.1, <[field_name field := v]> acc.2)
        end
    end.

(** [serializer.is_valid(raise_exception=True)]: every field is
    validated, the errors are collected per field, and the validated data
    hold the writable fields only. *)
Definition is_valid {R} (fields : list (Field R)) (partial : bool)
    (data : gmap string Value) : M (gmap string Value) :=
  db ← read_db;
  let '(errors, validated_data) :=
    foldl (λ acc field, validate_field partial db data field acc)
          (∅, ∅) fields in
  if bool_decide (errors = ∅) then mret validated_data
  else raise (ValidationError errors).

(** [Serializer.to_representation]: the fields that are not write-only. *)
Definition to_representation {R} (fields : list (Field R))
    (instance : models.Instance R) : gmap string Value :=
  list_to_map
    ((λ field, (field_name field, get_attribute field instance)) <$>
     filter (λ field, write_only field = false) fields).

End serializers.

(** ** apps/tasks/serializers.py *)

Module task_serializers.

Definition absent (_ : models.Database) (_ : Value) : string + Value :=
  inl "read_only".

(** The serializer field [ModelSerializer] derives from a column of
    [Task]: the automatic key and the two automatic timestamps are not
    editable, [description] is a required non-blank text, [completed] has
    a model default and is therefore optional. *)
Definition build_field (name : string) : serializers.Field models.Task :=
  if (name =? "id")%string then
    {| serializers.field_name := name; serializers.read_only := true;
       serializers.write_only := false; serializers.required := false;
       serializers.default_value := None;
       serializers.run_validation := absent;
       serializers.get_attribute := λ t, VInt (models.pk t) |}
  else if (name =? "description")%string then
    {| serializers.field_name := name; serializers.read_only := false;
       serializers.write_only := false; serializers.required := true;
       serializers.default_value := None;
       serializers.run_validation := λ _,
         serializers.CharField_run_validation false None (λ _, true);
       serializers.get_attribute := λ t,
         VStr (models.description (models.row t)) |}
  else if (name =? "completed")%string then
    {| serializers.field_name := name; serializers.read_only := false;
       serializers.write_only := false; serializers.required := false;
       serializers.default_value := None;
       serializers.run_validation := λ _,
         serializers.BooleanField_run_validation;
       serializers.get_attribute := λ t,
         VBool (models.completed (models.row t)) |}
  else if (name =? "creation_time")%string then
    {| serializers.field_name := name; serializers.read_only := true;
       serializers.write_only := false; serializers.required := false;
       serializers.default_value := None;
       serializers.run_validation := absent;
       serializers.get_attribute := λ t,
         VInt (models.creation_time (models.row t)) |}
  else
    {| serializers.field_name := name; serializers.read_only := true;
       serializers.write_only := false; serializers.required := false;
       serializers.default_value := None;
       serializers.run_validation := absent;
       serializers.get_attribute := λ t,
         VInt (models.updated_at (models.row t)) |}.

(** [Meta.read_only_fields], and a [read_only] entry of [extra_kwargs] *)
Definition mark_read_only (names : list string)
    (field : serializers.Field models.Task) : serializers.Field models.Task :=
  if existsb (String.eqb (serializers.field_name field)) names then
    {| serializers.field_name := serializers.field_name field;
       serializers.read_only := true;
       serializers.write_only := serializers.write_only field;
       serializers.required := false;
       serializers.default_value := serializers.default_value field;
       serializers.run_validation := serializers.run_validation field;
       serializers.get_attribute := serializers.get_attribute field |}
  else field.

Module TaskSerializer.
Definition Meta_fields : list string :=
  ["id"; "description"; "completed"; "creation_time"; "updated_at"].
Definition Meta_read_only_fields : list string :=
  ["creation_time"; "updated_at"; "completed"].

Definition fields : list (serializers.Field models.Task) :=
  mark_read_only Meta_read_only_fields <$> (build_field <$> Meta_fields).

(** [ModelSerializer.create]: [Task.objects.create] on the validated data;
    a column missing from the keyword arguments takes the model default
    ([completed] defaults to [False]). *)
Definition create (now : Z) (kwargs : gmap string Value)
  : M (models.Instance models.Task) :=
  lift (models.Task_objects_create now
          (match kwargs !! "user" with Some (VInt k) => k | _ => 0 end)
          (match kwargs !! "description" with Some (VStr s) => s | _ => "" end)
          (match kwargs !! "completed" with Some (VBool b) => b | _ => false end)).

(** [ModelSerializer.update]: every validated attribute is set on the
    instance, which is then saved. *)
Definition update (now : Z) (instance : models.Instance models.Task)
    (validated_data : gmap string Value)
  : M (models.Instance models.Task) :=
  let r := models.row instance in
  let r' :=
    {| models.user := models.user r;
       models.description :=
         match validated_data !! "description" with
         | Some (VStr s) => s | _ => models.description r end;
       models.completed :=
         match validated_data !! "completed" with
         | Some (VBool b) => b | _ => models.completed r end;
       models.creation_time :=
         match validated_data !! "creation_time" with
         | Some (VInt n) => n | _ => models.creation_time r end;
       models.updated_at :=
         match validated_data !! "updated_at" with
         | Some (VInt n) => n | _ => models.updated_at r end |} in
  lift (models.Task_save now {| models.pk := models.pk instance; models.row := r' |}).

Definition data (instance : models.Instance models.Task)
  : gmap string Value :=
  serializers.to_representation fields instance.
End TaskSerializer.

Module ListTasksSerializer.
Definition Meta_fields : list string :=
  ["id"; "description"; "completed"; "creation_time"].

(** [get_description]: [str(instance)], the model's [__str__]. *)
Definition get_description (instance : models.Instance models.Task)
  : string :=
  models.Task_str (models.row instance).

(** [description] is redeclared as a [SerializerMethodField], which is
    read-only and takes its value from [get_description]. *)
Definition fields : list (serializers.Field models.Task) :=
  (λ name,
     if (name =? "description")%string then
       {| serializers.field_name := name; serializers.read_only := true;
          serializers.write_only := false; serializers.required := false;
          serializers.default_value := None;
          serializers.run_validation := absent;
          serializers.get_attribute := λ t, VStr (get_description t) |}
     else build_field name) <$> Meta_fields.

Definition data (instance : models.Instance models.Task)
  : gmap string Value :=
  serializers.to_representation fields instance.
End ListTasksSerializer.

End task_serializers.

(** ** The filter library: form cleaning and [Filter.filter] *)

Module django_filters.

(** [CharFilter]'s form field: absent is the empty string; the value is
    trimmed. *)
Definition clean_char (params : gmap string string) (name : string) : string :=
  text.strip (default "" (params !! name)).

(** [BooleanFilter]'s widget and form field: anything but a spelling of
    true or false is "unknown". *)
Definition clean_boolean (params : gmap string string) (name : string)
  : option bool :=
  match text.lower <$> params !! name with
  | Some "1" | Some "true" => Some true
  | Some "0" | Some "false" => Some false
  | _ => None
  end.

(** [DateFilter]'s form field: absent or blank is no value; a text the
    parser rejects is a form error. *)
Definition clean_date `{Framework} (params : gmap string string)
    (name : string) : string + option Z :=
  let raw := text.strip (default "" (params !! name)) in
  if bool_decide (raw = "") then inr None
  else match parse_date raw with
       | Some d => inr (Some d)
       | None => inl "Enter a valid date."
       end.

(** [Filter.filter] for a text value and for an optional value: a value
    in [EMPTY_VALUES] (the empty string, [None]) leaves the queryset as it
    is. *)
Definition filter_char {R} (lookup : string → R → bool) (value : string)
    (qs : gmap Z R) : gmap Z R :=
  if bool_decide (value = "") then qs
  else filter (λ kv, lookup value kv.2 = true) qs.

Definition filter_option {A R} (lookup : A → R → bool) (value : option A)
    (qs : gmap Z R) : gmap Z R :=
  match value with
  | None => qs
  | Some v => filter (λ kv, lookup v kv.2 = true) qs
  end.

End django_filters.

(** ** apps/tasks/filters.py *)

Module task_filters.

(** [datetime.time], [time.min] and [time.max] *)
Record time := { hour : Z; minute : Z; second : Z; microsecond : Z }.
Definition time_min : time :=
  {| hour := 0; minute := 0; second := 0; microsecond := 0 |}.
Definition time_max : time :=
  {| hour := 23; minute := 59; second := 59; microsecond := 999999 |}.

Definition day : Z := 86400000000.

(** [datetime.combine(date, time)]: a naive date-time, in microseconds of
    the local clock. *)
Definition datetime_combine (date : Z) (t : time) : Z :=
  date * day + ((hour t * 60 + minute t) * 60 + second t) * 1000000
  + microsecond t.

(** [timezone.make_aware(naive, tz)] and the local calendar date of an
    instant (the [__date] transform). *)
Definition make_aware `{Framework} (naive : Z) : Z := naive - utcoffset.
Definition local_date `{Framework} (instant : Z) : Z :=
  (instant + utcoffset) `div` day.

(** The three lookups of [DescriptionFilter] on [description] and the
    equality on [completed]. *)
Definition description_iexact (value : string) (t : models.Task) : bool :=
  text.iexact value (models.description t).
Definition description_icontains (value : string) (t : models.Task) : bool :=
  text.icontains value (models.description t).
Definition description_istartswith (value : string) (t : models.Task) : bool :=
  text.istartswith value (models.description t).
Definition description_iregex `{Framework} (value : string) (t : models.Task)
  : bool :=
  iregex value (models.description t).
Definition completed_exact (value : bool) (t : models.Task) : bool :=
  bool_decide (models.completed t = value).

Module DateFilter.
(** [creation_time__date__gte] and [creation_time__date__lte] *)
Definition creation_time__date__gte `{Framework} (value : Z)
    (t : models.Task) : bool :=
  bool_decide (value ≤ local_date (models.creation_time t)).
Definition creation_time__date__lte `{Framework} (value : Z)
    (t : models.Task) : bool :=
  bool_decide (local_date (models.creation_time t) ≤ value).

(** [_get_day_range] *)
Definition _get_day_range `{Framework} (date_value : Z) : Z * Z :=
  let start_of_day := make_aware (datetime_combine date_value time_min) in
  let end_of_day := make_aware (datetime_combine date_value time_max) in
  (start_of_day, end_of_day).

(** [filter_created_on]: [creation_time__range=(start, end)], both ends
    included. *)
Definition filter_created_on `{Framework} (queryset : gmap Z models.Task)
    (value : Z) : gmap Z models.Task :=
  let '(start_of_day, end_of_day) := _get_day_range value in
  filter (λ kv, start_of_day ≤ models.creation_time kv.2 ≤ end_of_day)
         queryset.
End DateFilter.

Module TaskFilter.
Definition Meta_fields : list string :=
  ["description"; "description__contains"; "description__startswith";
   "description__regex"; "created_after"; "created_before"; "created_on";
   "completed"].

(** The cleaned form data, one entry per filter. *)
Record cleaned_data := {
  description : string;
  description__contains : string;
  description__startswith : string;
  description__regex : string;
  created_after : option Z;
  created_before : option Z;
  created_on : option Z;
  completed : option bool;
}.

(** The form: every date must parse, or the request is answered 400
    with the errors of all date fields. *)
Definition clean `{Framework} (params : gmap string string)
  : gmap string string + cleaned_data :=
  match django_filters.clean_date params "created_after",
        django_filters.clean_date params "created_before",
        django_filters.clean_date params "created_on" with
  | inr after, inr before, inr on =>
      inr {| description := django_filters.clean_char params "description";
             description__contains :=
               django_filters.clean_char params "description__contains";
             description__startswith :=
               django_filters.clean_char params "description__startswith";
             description__regex :=
               django_filters.clean_char params "description__regex";
             created_after := after;
             created_before := before;
             created_on := on;
             completed := django_filters.clean_boolean params "completed" |}
  | after, before, on =>
      let err (name : string) (r : string + option Z)
              (errors : gmap string string) :=
        match r with inl e => <[name := e]> errors | inr _ => errors end in
      inl (err "created_after" after
             (err "created_before" before (err "created_on" on ∅)))
  end.

(** [FilterSet.filter_queryset]: each filter in turn narrows the
    queryset by its cleaned value. *)
Definition filter_queryset `{Framework} (value : cleaned_data)
    (queryset : gmap Z models.Task) : gmap Z models.Task :=
  let qs := django_filters.filter_char description_iexact
              (description value) queryset in
  let qs := django_filters.filter_char description_icontains
              (description__contains value) qs in
  let qs := django_filters.filter_char description_istartswith
              (description__startswith value) qs in
  let qs := django_filters.filter_char description_iregex
              (description__regex value) qs in
  let qs := django_filters.filter_option DateFilter.creation_time__date__gte
              (created_after value) qs in
  let qs := django_filters.filter_option DateFilter.creation_time__date__lte
              (created_before value) qs in
  let qs := match created_on value with
            | None => qs
            | Some d => DateFilter.filter_created_on qs d
            end in
  django_filters.filter_option completed_exact (completed value) qs.

(** [FilterSet.qs]: the filtered queryset of a valid form, the form errors
    otherwise. *)
Definition qs `{Framework} (params : gmap string string)
    (queryset : gmap Z models.Task)
  : gmap string string + gmap Z models.Task :=
  match clean params with
  | inl errors => inl errors
  | inr value => inr (filter_queryset value queryset)
  end.
End TaskFilter.

End task_filters.

(** ** apps/tasks/views.py *)

Module task_views.

(** [permission_classes] of every task view *)
Definition permission_classes : list Permission :=
  [IsAuthenticated; permissions.IsOwner].

(** [get_queryset] of every task view:
    [Task.objects.filter(user=self.request.user)]. *)
Definition get_queryset (request : Request.t) : M (gmap Z models.Task) :=
  db ← read_db;
  mret (filter (λ kv, Some (models.user kv.2)
                      = models.pk <$> Request.user request)
               (models.Task_objects db)).

Definition get_object (request : Request.t) (pk : Z)
  : M (models.Instance models.Task) :=
  get_object models.TaskObj permission_classes get_queryset request (Some pk).

Definition Response_200 (fields : gmap string Value) : Response.t :=
  {| Response.status_code := 200; Response.data := Data fields |}.

Module TaskListView.
(** [list]: the owner's tasks, narrowed by [TaskFilter], each one
    serialized by [ListTasksSerializer]. The response carries their
    number and their representations by key; putting them in order and
    into pages is left to the framework. *)
Definition list `{Framework} (request : Request.t) : M Response.t :=
  queryset ← get_queryset request;
  match task_filters.TaskFilter.qs (Request.query_params request) queryset with
  | inl errors => raise (ValidationError errors)
  | inr filtered =>
      mret {| Response.status_code := 200;
              Response.data :=
                Results (size filtered)
                  (map_imap (λ k r, Some
                     (task_serializers.ListTasksSerializer.data
                        {| models.pk := k; models.row := r |})) filtered) |}
  end.
End TaskListView.

Module TaskCreateView.
(** [create] with [perform_create]: [serializer.save(user=user)] *)
Definition create (now : Z) (request : Request.t) : M Response.t :=
  validated_data ← serializers.is_valid
    task_serializers.TaskSerializer.fields false (Request.data request);
  let owner := from_option models.pk 0 (Request.user request) in
  task ← task_serializers.TaskSerializer.create now
            (<["user" := VInt owner]> validated_data);
  mret {| Response.status_code := 201;
          Response.data := Data (task_serializers.TaskSerializer.data task) |}.
End TaskCreateView.

Module TaskDetailView.
Definition retrieve (request : Request.t) (pk : Z) : M Response.t :=
  instance ← get_object request pk;
  mret (Response_200 (task_serializers.TaskSerializer.data instance)).
End TaskDetailView.

Module TaskUpdateDescriptionView.
(** [update], reached by PATCH only: the task is looked up (for the log
    line), then the inherited partial update looks it up again,
    validates and saves. *)
Definition update (now : Z) (request : Request.t) (pk : Z) : M Response.t :=
  task ← get_object request pk;
  instance ← get_object request pk;
  validated_data ← serializers.is_valid
    task_serializers.TaskSerializer.fields true (Request.data request);
  instance ← task_serializers.TaskSerializer.update now instance validated_data;
  mret (Response_200 (task_serializers.TaskSerializer.data instance)).
End TaskUpdateDescriptionView.

Module TaskToggleCompletionView.
Definition update (now : Z) (request : Request.t) (pk : Z) : M Response.t :=
  task ← get_object request pk;
  task ← lift (models.toggle_completion now task);
  mret (Response_200 (task_serializers.TaskSerializer.data task)).
End TaskToggleCompletionView.

Module TaskDeleteView.
Definition destroy (request : Request.t) (pk : Z) : M Response.t :=
  task ← get_object request pk;
  instance ← get_object request pk;
  _ ← lift (λ db, ((), models.Task_delete instance db));
  mret {| Response.status_code := 204; Response.data := NoBody |}.
End TaskDeleteView.

End task_views.

(** ** apps/tasks/urls.py *)

Inductive Method := GET | POST | PUT | PATCH | DELETE.

Definition method_not_allowed : Response.t :=
  {| Response.status_code := 405; Response.data := Detail "Method not allowed." |}.

Module task_urls.

(** The six [urlpatterns]; [<int:pk>] is a natural number in decimal. *)
Inductive Route :=
| task_list
| task_create
| task_detail (pk : Z)
| task_update_description (pk : Z)
| task_toggle_complete (pk : Z)
| task_delete (pk : Z).

(** The four requests that address a task by its key. *)
Definition keyed_requests : list ((Z → Route) * Method) :=
  [(task_detail, GET);
   (task_update_description, PATCH);
   (task_toggle_complete, PATCH);
   (task_delete, DELETE)].

(** The handler a view has for a method, if any. *)
Definition handler `{Framework} (now : Z) (route : Route) (method : Method)
    (request : Request.t) : option (M Response.t) :=
  match route, method with
  | task_list, GET => Some (task_views.TaskListView.list request)
  | task_create, POST => Some (task_views.TaskCreateView.create now request)
  | task_detail pk, GET => Some (task_views.TaskDetailView.retrieve request pk)
  | task_update_description pk, PATCH =>
      Some (task_views.TaskUpdateDescriptionView.update now request pk)
  | task_toggle_complete pk, PATCH =>
      Some (task_views.TaskToggleCompletionView.update now request pk)
  | task_delete pk, DELETE => Some (task_views.TaskDeleteView.destroy request pk)
  | _, _ => None
  end.

(** One request against the task API at time [now]. *)
Definition serve `{Framework} (now : Z) (route : Route) (method : Method)
    (request : Request.t) (db : models.Database)
  : Response.t * models.Database :=
  dispatch task_views.permission_classes request
    (match handler now route method request with
     | Some h => h
     | None => mret method_not_allowed
     end) db.

End task_urls.

(** ** apps/users/serializers.py *)

Module user_serializers.

(** The text fields [ModelSerializer] derives from the columns of [User].
    [username] is required, at most 150 characters, valid and unique;
    [email] (at most 254) and the two names (at most 150) may be blank
    and are optional. *)
Definition build_field `{Framework} (name : string)
  : serializers.Field models.User :=
  if (name =? "id")%string then
    {| serializers.field_name := name; serializers.read_only := true;
       serializers.write_only := false; serializers.required := false;
       serializers.default_value := None;
       serializers.run_validation := task_serializers.absent;
       serializers.get_attribute := λ u, VInt (models.pk u) |}
  else if (name =? "username")%string then
    {| serializers.field_name := name; serializers.read_only := false;
       serializers.write_only := false; serializers.required := true;
       serializers.default_value := None;
       serializers.run_validation := λ db value,
         match serializers.CharField_run_validation false (Some 150%nat)
                 validate_username value with
         | inr (VStr s) =>
             if bool_decide
                  (filter (λ kv, models.username kv.2 = s)
                          (models.User_objects db) = ∅)
             then inr (VStr s) else inl "unique"
         | r => r
         end;
       serializers.get_attribute := λ u,
         VStr (models.username (models.row u)) |}
  else if (name =? "email")%string then
    {| serializers.field_name := name; serializers.read_only := false;
       serializers.write_only := false; serializers.required := false;
       serializers.default_value := None;
       serializers.run_validation := λ _,
         serializers.CharField_run_validation true (Some 254%nat)
           validate_email;
       serializers.get_attribute := λ u, VStr (models.email (models.row u)) |}
  else if (name =? "first_name")%string then
    {| serializers.field_name := name; serializers.read_only := false;
       serializers.write_only := false; serializers.required := false;
       serializers.default_value := None;
       serializers.run_validation := λ _,
         serializers.CharField_run_validation true (Some 150%nat) (λ _, true);
       serializers.get_attribute := λ u,
         VStr (models.first_name (models.row u)) |}
  else
    {| serializers.field_name := name; serializers.read_only := false;
       serializers.write_only := false; serializers.required := false;
       serializers.default_value := None;
       serializers.run_validation := λ _,
         serializers.CharField_run_validation true (Some 150%nat) (λ _, true);
       serializers.get_attribute := λ u,
         VStr (models.last_name (models.row u)) |}.

(** [PasswordSerializer.password]: a declared, required, write-only text
    field with [validate_password] as its validator. *)
Definition password `{Framework} : serializers.Field models.User :=
  {| serializers.field_name := "password"; serializers.read_only := false;
     serializers.write_only := true; serializers.required := true;
     serializers.default_value := None;
     serializers.run_validation := λ _,
       serializers.CharField_run_validation false None validate_password;
     serializers.get_attribute := λ u,
       VStr (models.password (models.row u)) |}.

Module UserCreateSerializer.
Definition Meta_fields : list string :=
  ["username"; "email"; "first_name"; "last_name"; "password"; "is_active"].

(** [is_active = serializers.BooleanField(default=True)] *)
Definition is_active : serializers.Field models.User :=
  {| serializers.field_name := "is_active"; serializers.read_only := false;
     serializers.write_only := false; serializers.required := false;
     serializers.default_value := Some (VBool true);
     serializers.run_validation := λ _,
       serializers.BooleanField_run_validation;
     serializers.get_attribute := λ u,
       VBool (models.is_active (models.row u)) |}.

(** A declared field takes precedence over the one derived from the
    model. *)
Definition fields `{Framework} : list (serializers.Field models.User) :=
  (λ name,
     if (name =? "password")%string then password
     else if (name =? "is_active")%string then is_active
     else build_field name) <$> Meta_fields.

(** The row [User.objects.create] builds from keyword arguments; a column
    that is not among them takes the model default (empty text, not staff,
    not superuser, active). *)
Definition User_of_kwargs (kwargs : gmap string Value) : models.User :=
  let text (name : string) :=
    match kwargs !! name with Some (VStr s) => s | _ => "" end in
  let flag (name : string) (default : bool) :=
    match kwargs !! name with Some (VBool b) => b | _ => default end in
  {| models.username := text "username";
     models.first_name := text "first_name";
     models.last_name := text "last_name";
     models.email := text "email";
     models.password := text "password";
     models.is_staff := flag "is_staff" false;
     models.is_active := flag "is_active" true;
     models.is_superuser := flag "is_superuser" false |}.

(** [ModelSerializer.create]: [User.objects.create] on the validated
    data; the row gets the next primary key. *)
Definition create (validated_data : gmap string Value)
  : M (models.Instance models.User) :=
  lift (λ db,
    let k := models.next_pk (models.User_objects db) in
    let r := User_of_kwargs validated_data in
    ({| models.pk := k; models.row := r |},
     {| models.User_objects := <[k := r]> (models.User_objects db);
        models.Task_objects := models.Task_objects db |})).

Definition data `{Framework} (instance : models.Instance models.User)
  : gmap string Value :=
  serializers.to_representation fields instance.
End UserCreateSerializer.

Module UserUpdateSerializer.
Definition Meta_fields : list string :=
  ["email"; "first_name"; "last_name"; "password"].

Definition fields `{Framework} : list (serializers.Field models.User) :=
  (λ name, if (name =? "password")%string then password
           else build_field name) <$> Meta_fields.

(** [update]: the password is taken out of the validated data, every
    remaining attribute is set on the instance, the password (if any)
    is set through [set_password], and the instance is saved. *)
Definition update `{Framework} (instance : models.Instance models.User)
    (validated_data : gmap string Value)
  : M (models.Instance models.User) :=
  let password := validated_data !! "password" in
  let validated_data := delete "password" validated_data in
  let r := models.row instance in
  let text (name : string) (old : string) :=
    match validated_data !! name with Some (VStr s) => s | _ => old end in
  let flag (name : string) (old : bool) :=
    match validated_data !! name with Some (VBool b) => b | _ => old end in
  let r' :=
    {| models.username := text "username" (models.username r);
       models.first_name := text "first_name" (models.first_name r);
       models.last_name := text "last_name" (models.last_name r);
       models.email := text "email" (models.email r);
       models.password :=
         match password with
         | Some (VStr raw) => make_password raw
         | _ => models.password r
         end;
       models.is_staff := flag "is_staff" (models.is_staff r);
       models.is_active := flag "is_active" (models.is_active r);
       models.is_superuser := flag "is_superuser" (models.is_superuser r) |} in
  lift (λ db,
    ({| models.pk := models.pk instance; models.row := r' |},
     {| models.User_objects :=
          <[models.pk instance := r']> (models.User_objects db);
        models.Task_objects := models.Task_objects db |})).

Definition data `{Framework} (instance : models.Instance models.User)
  : gmap string Value :=
  serializers.to_representation fields instance.
End UserUpdateSerializer.

Module UserSerializer.
Definition Meta_fields : list string :=
  ["id"; "username"; "email"; "first_name"; "last_name"].

Definition fields `{Framework} : list (serializers.Field models.User) :=
  build_field <$> Meta_fields.

Definition data `{Framework} (instance : models.Instance models.User)
  : gmap string Value :=
  serializers.to_representation fields instance.
End UserSerializer.

End user_serializers.

(** ** apps/users/filters.py *)

Module user_filters.

Definition username_icontains (value : string) (u : models.User) : bool :=
  text.icontains value (models.username u).
Definition email_icontains (value : string) (u : models.User) : bool :=
  text.icontains value (models.email u).

Module UserFilter.
Definition Meta_fields : list string := ["username"; "email"].

Definition filter_queryset (params : gmap string string)
    (queryset : gmap Z models.User) : gmap Z models.User :=
  let qs := django_filters.filter_char username_icontains
              (django_filters.clean_char params "username") queryset in
  django_filters.filter_char email_icontains
    (django_filters.clean_char params "email") qs.
End UserFilter.

End user_filters.

(** ** apps/users/views.py *)

Module user_views.

Module UserRegistrationViewSet.
Definition permission_classes : list Permission := [AllowAny].

(** [create] with [perform_create]: [serializer.save()] *)
Definition create `{Framework} (request : Request.t) : M Response.t :=
  validated_data ← serializers.is_valid
    user_serializers.UserCreateSerializer.fields false (Request.data request);
  instance ← user_serializers.UserCreateSerializer.create validated_data;
  mret {| Response.status_code := 201;
          Response.data :=
            Data (user_serializers.UserCreateSerializer.data instance) |}.
End UserRegistrationViewSet.

Module UserProfileViewSet.
Definition permission_classes : list Permission :=
  [IsAuthenticated; permissions.IsOwnerOrStaff].

(** [queryset = User.objects.all()] *)
Definition get_queryset (request : Request.t) : M (gmap Z models.User) :=
  db ← read_db; mret (models.User_objects db).

(** The key in the URL is a text; the table lookup converts it to a
    number, and a text that is not one finds nothing. *)
Definition get_object (request : Request.t) (pk : string)
  : M (models.Instance models.User) :=
  get_object models.UserObj permission_classes get_queryset request
    (text.int pk).

Definition retrieve `{Framework} (request : Request.t) (pk : string)
  : M Response.t :=
  let requested_user_id := pk in
  let is_staff :=
    from_option (λ u, models.is_staff (models.row u)) false
      (Request.user request) in
  let id := from_option (λ u, text.str (models.pk u)) "None"
              (Request.user request) in
  if negb is_staff && negb (bool_decide (id = requested_user_id))
  then raise (PermissionDenied
                "You do not have permission to access this profile.")
  else
    instance ← get_object request pk;
    mret {| Response.status_code := 200;
            Response.data :=
              Data (user_serializers.UserSerializer.data instance) |}.

(** [update] and [partial_update]: the inherited update with
    [UserUpdateSerializer]; [partial] is set for PATCH. *)
Definition update `{Framework} (partial : bool) (request : Request.t)
    (pk : string) : M Response.t :=
  instance ← get_object request pk;
  validated_data ← serializers.is_valid
    user_serializers.UserUpdateSerializer.fields partial
    (Request.data request);
  instance ← user_serializers.UserUpdateSerializer.update instance
               validated_data;
  mret {| Response.status_code := 200;
          Response.data :=
            Data (user_serializers.UserUpdateSerializer.data instance) |}.

Definition destroy (request : Request.t) (pk : string) : M Response.t :=
  user_to_delete ← get_object request pk;
  instance ← get_object request pk;
  _ ← lift (λ db, ((), models.User_delete instance db));
  mret {| Response.status_code := 204; Response.data := NoBody |}.
End UserProfileViewSet.

Module UserListViewSet.
Definition permission_classes : list Permission := [IsAuthenticated].

(** [get_queryset]: every user for staff and superusers, the one row
    with the requesting user's key for anybody else. *)
Definition get_queryset (request : Request.t) : M (gmap Z models.User) :=
  db ← read_db;
  match Request.user request with
  | Some user =>
      if models.is_staff (models.row user)
         || models.is_superuser (models.row user)
      then mret (models.User_objects db)
      else mret (filter (λ kv, kv.1 = models.pk user)
                        (models.User_objects db))
  | None => mret ∅
  end.

Definition list `{Framework} (request : Request.t) : M Response.t :=
  queryset ← get_queryset request;
  let filtered := user_filters.UserFilter.filter_queryset
                    (Request.query_params request) queryset in
  mret {| Response.status_code := 200;
          Response.data :=
            Results (size filtered)
              (map_imap (λ k r, Some
                 (user_serializers.UserSerializer.data
                    {| models.pk := k; models.row := r |})) filtered) |}.
End UserListViewSet.

End user_views.

(** ** apps/users/urls.py *)

Module user_urls.

(** The routes of the router: [register/], [profiles/<pk>/] and the
    list at the root. *)
Inductive Route :=
| user_register
| user_profile (pk : string)
| user_list.

Definition permission_classes (route : Route) : list Permission :=
  match route with
  | user_register => user_views.UserRegistrationViewSet.permission_classes
  | user_profile _ => user_views.UserProfileViewSet.permission_classes
  | user_list => user_views.UserListViewSet.permission_classes
  end.

Definition handler `{Framework} (route : Route) (method : Method)
    (request : Request.t) : option (M Response.t) :=
  match route, method with
  | user_register, POST =>
      Some (user_views.UserRegistrationViewSet.create request)
  | user_profile pk, GET =>
      Some (user_views.UserProfileViewSet.retrieve request pk)
  | user_profile pk, PUT =>
      Some (user_views.UserProfileViewSet.update false request pk)
  | user_profile pk, PATCH =>
      Some (user_views.UserProfileViewSet.update true request pk)
  | user_profile pk, DELETE =>
      Some (user_views.UserProfileViewSet.destroy request pk)
  | user_list, GET => Some (user_views.UserListViewSet.list request)
  | _, _ => None
  end.

(** One request against the user API. *)
Definition serve `{Framework} (route : Route) (method : Method)
    (request : Request.t) (db : models.Database)
  : Response.t * models.Database :=
  dispatch (permission_classes route) request
    (match handler route method request with
     | Some h => h
     | None => mret method_not_allowed
     end) db.

End user_urls.

(** ** The filter contract, in the words of the specification *)

Module contract.

(** A task satisfies every supplied filter: [description] is a
    case-insensitive exact match, [description__contains] a substring
    match, [description__startswith] a prefix match, [description__regex] a
    regular-expression match, [created_after] and [created_before] bound
    the local creation date, [created_on] puts the creation instant between
    the start and the end of the local day, [completed] is an equality. A
    filter is supplied when its cleaned value is not empty. *)
Definition satisfies `{Framework} (value : task_filters.TaskFilter.cleaned_data)
    (t : models.Task) : Prop :=
  (task_filters.TaskFilter.description value ≠ "" →
   text.iexact (task_filters.TaskFilter.description value)
     (models.description t) = true)
  ∧ (task_filters.TaskFilter.description__contains value ≠ "" →
     text.icontains (task_filters.TaskFilter.description__contains value)
       (models.description t) = true)
  ∧ (task_filters.TaskFilter.description__startswith value ≠ "" →
     text.istartswith (task_filters.TaskFilter.description__startswith value)
       (models.description t) = true)
  ∧ (task_filters.TaskFilter.description__regex value ≠ "" →
     iregex (task_filters.TaskFilter.description__regex value)
       (models.description t) = true)
  ∧ (∀ d, task_filters.TaskFilter.created_after value = Some d →
          d ≤ task_filters.local_date (models.creation_time t))
  ∧ (∀ d, task_filters.TaskFilter.created_before value = Some d →
          task_filters.local_date (models.creation_time t) ≤ d)
  ∧ (∀ d, task_filters.TaskFilter.created_on value = Some d →
          task_filters.make_aware
            (task_filters.datetime_combine d task_filters.time_min)
          ≤ models.creation_time t
          ≤ task_filters.make_aware
              (task_filters.datetime_combine d task_filters.time_max))
  ∧ (∀ b, task_filters.TaskFilter.completed value = Some b →
          models.completed t = b).


End contract.

(** ** A small database to run the model on *)

Module sample.

(** Local time three hours behind UTC; no regular expressions; a password
    is good from eight characters on; an address needs an [@]. *)
Definition framework : Framework :=
  {| utcoffset := -10800000000;
     iregex := λ _ _, false;
     validate_password := λ s, (8 <=? String.length s)%nat;
     validate_email := text.contains "@";
     validate_username := λ _, true;
     make_password := λ raw, "hash$" +:+ raw;
     parse_date := λ s,
       if decide (s = "2025-08-10") then Some 20310
       else if decide (s = "2025-08-11") then Some 20311
       else None |}.

Definition alice : models.Instance models.User :=
  {| models.pk := 1;
     models.row :=
       {| models.username := "alice"; models.first_name := "Alice";
          models.last_name := "A"; models.email := "alice@example.com";
          models.password := "hash$alice-secret"; models.is_staff := false;
          models.is_active := true; models.is_superuser := false |} |}.

Definition bob : models.Instance models.User :=
  {| models.pk := 2;
     models.row :=
       {| models.username := "bob"; models.first_name := "Bob";
          models.last_name := "B"; models.email := "bob@example.com";
          models.password := "hash$bob-secret"; models.is_staff := false;
          models.is_active := true; models.is_superuser := false |} |}.

Definition carol : models.Instance models.User :=
  {| models.pk := 3;
     models.row :=
       {| models.username := "carol"; models.first_name := "Carol";
          models.last_name := "C"; models.email := "carol@example.com";
          models.password := "hash$carol-secret"; models.is_staff := true;
          models.is_active := true; models.is_superuser := false |} |}.

Definition groceries : models.Task :=
  {| models.user := 1; models.description := "Buy groceries";
     models.completed := true;
     models.creation_time := 1754881199000000;
     models.updated_at := 1754881199000000 |}.

Definition laptop : models.Task :=
  {| models.user := 1; models.description := "Buy new laptop";
     models.completed := false;
     models.creation_time := 1754881201000000;
     models.updated_at := 1754881201000000 |}.

Definition plumber : models.Task :=
  {| models.user := 1; models.description := "Call plumber";
     models.completed := true;
     models.creation_time := 1754751600000000;
     models.updated_at := 1754751600000000 |}.

Definition report : models.Task :=
  {| models.user := 2;
     models.description :=
       "Write the quarterly report and send it to the whole team";
     models.completed := false;
     models.creation_time := 1754794800000000;
     models.updated_at := 1754794800000000 |}.

Definition db : models.Database :=
  {| models.User_objects :=
       <[1 := models.row alice]>
         (<[2 := models.row bob]> (<[3 := models.row carol]> ∅));
     models.Task_objects :=
       <[1 := groceries]>
         (<[2 := laptop]> (<[3 := plumber]> (<[4 := report]> ∅))) |}.

Definition request (user : models.Instance models.User)
    (data : list (string * Value)) (query_params : list (string * string))
  : Request.t :=
  {| Request.user := Some user;
     Request.data := list_to_map data;
     Request.query_params := list_to_map query_params |}.

End sample.

(** * Properties *)

(** ** Running a view: the monad's equations *)

Lemma bind_return {A B} (m : M A) (f : A → M B) db a db' :
  m db = (Return a, db') → (m ≫= f) db = f a db'.
Proof. intros Hm. unfold mbind, M_bind. by rewrite Hm. Qed.

Lemma bind_raise {A B} (m : M A) (f : A → M B) db exc db' :
  m db = (Raise exc, db') → (m ≫= f) db = (Raise exc, db').
Proof. intros Hm. unfold mbind, M_bind. by rewrite Hm. Qed.

Lemma dispatch_raise classes request handler db exc :
  check_permissions classes request db = (Return (), db) →
  handler db = (Raise exc, db) →
  dispatch classes request handler db = (exception_handler exc, db).
Proof.
  intros Hperm Hh. unfold dispatch.
  by rewrite (bind_return _ _ _ _ _ Hperm), Hh.
Qed.

Lemma dispatch_return classes request handler db response db' :
  check_permissions classes request db = (Return (), db) →
  handler db = (Return response, db') →
  dispatch classes request handler db = (response, db').
Proof.
  intros Hperm Hh. unfold dispatch.
  by rewrite (bind_return _ _ _ _ _ Hperm), Hh.
Qed.

(** ** Task views: the owned lookup *)

Lemma task_check_permissions request db :
  is_Some (Request.user request) →
  check_permissions task_views.permission_classes request db = (Return (), db).
Proof.
  intros Hu. unfold task_views.permission_classes. simpl.
  by rewrite bool_decide_eq_true_2.
Qed.

(** A key under which the requesting user owns no task raises [Http404]
    and leaves the database alone, whether the key is free or taken by
    somebody else's task. *)
Lemma task_get_object_404 request pk db :
  (∀ t, models.Task_objects db !! pk = Some t →
        Some (models.user t) ≠ models.pk <$> Request.user request) →
  task_views.get_object request pk db = (Raise Http404, db).
Proof.
  intros Hnot. unfold task_views.get_object, get_object.
  unfold task_views.get_queryset, mbind, M_bind, read_db, mret, M_ret.
  destruct (filter _ _ !! pk) as [t|] eqn:Hlook; [|done].
  apply map_lookup_filter_Some in Hlook as [Ht Hown]. simpl in Hown.
  by destruct (Hnot t Ht).
Qed.

(** The owner's lookup returns the stored row. *)
Lemma task_get_object_owner request user pk t db :
  Request.user request = Some user →
  models.Task_objects db !! pk = Some t →
  models.user t = models.pk user →
  task_views.get_object request pk db
  = (Return {| models.pk := pk; models.row := t |}, db).
Proof.
  intros Hu Ht Hown. unfold task_views.get_object, get_object.
  unfold task_views.get_queryset, mbind, M_bind, read_db, mret, M_ret.
  rewrite (proj2 (map_lookup_filter_Some _ _ pk t)).
  2:{ split; [done|]. simpl. by rewrite Hu, Hown. }
  unfold task_views.permission_classes. simpl.
  rewrite Hu. simpl. rewrite Hown.
  by rewrite bool_decide_eq_true_2.
Qed.

(** Any such request for a key under which the requesting user owns no
    task is answered 404 "Not found." and changes nothing. *)
Lemma task_request_404 `{Framework} now request pk db route method :
  is_Some (Request.user request) →
  (∀ t, models.Task_objects db !! pk = Some t →
        Some (models.user t) ≠ models.pk <$> Request.user request) →
  (route, method) ∈ task_urls.keyed_requests →
  task_urls.serve now (route pk) method request db
  = (exception_handler Http404, db).
Proof.
  intros Hu Hnot Hin. unfold task_urls.serve.
  apply dispatch_raise; [by apply task_check_permissions|].
  pose proof (task_get_object_404 request pk db Hnot) as Hget.
  unfold task_urls.keyed_requests in Hin. set_unfold in Hin.
  destruct Hin as [Heq|[Heq|[Heq|[Heq|[]]]]]; simplify_eq; simpl.
  - unfold task_views.TaskDetailView.retrieve. by apply bind_raise.
  - unfold task_views.TaskUpdateDescriptionView.update. by apply bind_raise.
  - unfold task_views.TaskToggleCompletionView.update. by apply bind_raise.
  - unfold task_views.TaskDeleteView.destroy. by apply bind_raise.
Qed.

(** C1. For an authenticated principal [P] and a task [T] (stored under
    [pk]) whose owner is not [P], each of GET detail, PATCH
    update-description, PATCH toggle-complete and DELETE addressed to [pk]
    is answered with status 404 and the body "Not found.", changes nothing
    in the database, and is the very answer the same request gets for a key
    [missing] under which no task is stored; the status is never 403. *)
Theorem C1_foreign_task_is_not_found `{Framework} (now : Z)
    (P : models.Instance models.User) (request : Request.t)
    (db : models.Database) (pk missing : Z) (T : models.Task)
    (route : Z → task_urls.Route) (method : Method) :
  Request.user request = Some P →
  models.Task_objects db !! pk = Some T →
  models.user T ≠ models.pk P →
  models.Task_objects db !! missing = None →
  (route, method) ∈ task_urls.keyed_requests →
  task_urls.serve now (route pk) method request db
  = ({| Response.status_code := 404; Response.data := Detail "Not found." |}, db)
  ∧ task_urls.serve now (route pk) method request db
    = task_urls.serve now (route missing) method request db
  ∧ Response.status_code (task_urls.serve now (route pk) method request db).1
    ≠ 403.
Proof.
  intros Hu HT Hother Hmissing Hin.
  assert (task_urls.serve now (route pk) method request db
          = (exception_handler Http404, db)) as Hpk.
  { apply task_request_404; [by rewrite Hu| |done].
    intros t Ht. rewrite Hu. simpl. congruence. }
  assert (task_urls.serve now (route missing) method request db
          = (exception_handler Http404, db)) as Hmiss.
  { apply task_request_404; [by rewrite Hu| |done].
    intros t Ht. congruence. }
  rewrite Hpk, Hmiss. by repeat split.
Qed.

(** Bob asks to delete Alice's task 1; key 9 is free. *)
Lemma C1_foreign_task_is_not_found_witness :
  task_urls.serve (H := sample.framework) 0 (task_urls.task_delete 1) DELETE
    (sample.request sample.bob [] []) sample.db
  = ({| Response.status_code := 404; Response.data := Detail "Not found." |},
     sample.db)
  ∧ task_urls.serve (H := sample.framework) 0 (task_urls.task_delete 1) DELETE
      (sample.request sample.bob [] []) sample.db
    = task_urls.serve (H := sample.framework) 0 (task_urls.task_delete 9) DELETE
        (sample.request sample.bob [] []) sample.db
  ∧ Response.status_code
      (task_urls.serve (H := sample.framework) 0 (task_urls.task_delete 1)
         DELETE (sample.request sample.bob [] []) sample.db).1 ≠ 403.
Proof.
  apply (C1_foreign_task_is_not_found (H := sample.framework) 0 sample.bob
           (sample.request sample.bob [] []) sample.db 1 9 sample.groceries
           task_urls.task_delete DELETE).
  - reflexivity.
  - reflexivity.
  - vm_compute. discriminate.
  - reflexivity.
  - vm_compute. set_solver.
Defined.

(** ** Task serializer *)

(** The full representation of a task. *)
Lemma TaskSerializer_data instance :
  task_serializers.TaskSerializer.data instance
  = list_to_map
      [("id", VInt (models.pk instance));
       ("description", VStr (models.description (models.row instance)));
       ("completed", VBool (models.completed (models.row instance)));
       ("creation_time", VInt (models.creation_time (models.row instance)));
       ("updated_at", VInt (models.updated_at (models.row instance)))].
Proof. reflexivity. Qed.


(** A text field yields a text. *)
Lemma CharField_run_validation_inr allow_blank max_length validator value v :
  serializers.CharField_run_validation allow_blank max_length validator value
  = inr v →
  ∃ s, v = VStr s.
Proof.
  unfold serializers.CharField_run_validation.
  destruct value; try done; repeat case_match; naive_solver.
Qed.

(** Validation by [TaskSerializer] looks at [description] and at nothing
    else in the payload: the other four fields are read-only. *)
Lemma TaskSerializer_is_valid partial data db :
  serializers.is_valid task_serializers.TaskSerializer.fields partial data db
  = match data !! "description" with
    | None =>
        if partial then (Return ∅, db)
        else (Raise (ValidationError {["description" := "required"]}), db)
    | Some value =>
        match serializers.CharField_run_validation false None (λ _, true) value with
        | inl code => (Raise (ValidationError {["description" := code]}), db)
        | inr v => (Return {["description" := v]}, db)
        end
    end.
Proof.
  unfold serializers.is_valid, mbind, M_bind, read_db. cbn.
  unfold serializers.validate_field. cbn.
  destruct (data !! "description") as [value|]; cbn.
  - destruct (serializers.CharField_run_validation _ _ _ value); cbn; [|done].
    rewrite bool_decide_eq_false_2; [done|]. apply insert_non_empty.
  - destruct partial; cbn; [done|].
    rewrite bool_decide_eq_false_2; [done|]. apply insert_non_empty.
Qed.

(** ** Task views run by the owner *)

(** What creating a task does, case by case on the payload's
    [description]. *)
Lemma task_create_run now request user db :
  Request.user request = Some user →
  task_views.TaskCreateView.create now request db
  = match Request.data request !! "description" with
    | None => (Raise (ValidationError {["description" := "required"]}), db)
    | Some value =>
        match serializers.CharField_run_validation false None (λ _, true) value with
        | inl code => (Raise (ValidationError {["description" := code]}), db)
        | inr v =>
            let '(task, db') :=
              models.Task_objects_create now (models.pk user)
                (match v with VStr s => s | _ => "" end) false db in
            (Return {| Response.status_code := 201;
                       Response.data :=
                         Data (task_serializers.TaskSerializer.data task) |},
             db')
        end
    end.
Proof.
  intros Hu. unfold task_views.TaskCreateView.create.
  unfold mbind at 1. unfold M_bind at 1. rewrite TaskSerializer_is_valid.
  destruct (Request.data request !! "description") as [value|]; [|done].
  destruct (serializers.CharField_run_validation _ _ _ value) as [code|v]; [done|].
  rewrite Hu. simpl.
  unfold task_serializers.TaskSerializer.create, lift, mbind, M_bind.
  rewrite lookup_insert_eq.
  rewrite lookup_insert_ne, lookup_singleton_eq by done.
  rewrite lookup_insert_ne, lookup_singleton_ne by done.
  reflexivity.
Qed.

(** What updating the description does for the owner of the task. *)
Lemma task_update_run now request user pk t db :
  Request.user request = Some user →
  models.Task_objects db !! pk = Some t →
  models.user t = models.pk user →
  task_views.TaskUpdateDescriptionView.update now request pk db
  = match Request.data request !! "description" with
    | None =>
        let '(task, db') :=
          models.Task_save now {| models.pk := pk; models.row := t |} db in
        (Return (task_views.Response_200
                   (task_serializers.TaskSerializer.data task)), db')
    | Some value =>
        match serializers.CharField_run_validation false None (λ _, true) value with
        | inl code => (Raise (ValidationError {["description" := code]}), db)
        | inr v =>
            let '(task, db') :=
              models.Task_save now
                {| models.pk := pk;
                   models.row :=
                     {| models.user := models.user t;
                        models.description :=
                          match v with VStr s => s | _ => models.description t end;
                        models.completed := models.completed t;
                        models.creation_time := models.creation_time t;
                        models.updated_at := models.updated_at t |} |} db in
            (Return (task_views.Response_200
                       (task_serializers.TaskSerializer.data task)), db')
        end
    end.
Proof.
  intros Hu Ht Hown. unfold task_views.TaskUpdateDescriptionView.update.
  pose proof (task_get_object_owner request user pk t db Hu Ht Hown) as Hget.
  rewrite (bind_return _ _ _ _ _ Hget).
  rewrite (bind_return _ _ _ _ _ Hget).
  unfold mbind at 1. unfold M_bind at 1. rewrite TaskSerializer_is_valid.
  destruct (Request.data request !! "description") as [value|].
  - destruct (serializers.CharField_run_validation _ _ _ value) as [code|v]; [done|].
    unfold task_serializers.TaskSerializer.update, lift, mbind, M_bind. simpl.
    rewrite lookup_singleton_eq. rewrite !lookup_singleton_ne by done.
    destruct v; destruct t; reflexivity.
  - unfold task_serializers.TaskSerializer.update, lift, mbind, M_bind. simpl.
    rewrite !lookup_empty. destruct t; reflexivity.
Qed.

(** What toggling does for the owner of the task. *)
Lemma task_toggle_run now request user pk t db :
  Request.user request = Some user →
  models.Task_objects db !! pk = Some t →
  models.user t = models.pk user →
  task_views.TaskToggleCompletionView.update now request pk db
  = let '(task, db') :=
      models.toggle_completion now {| models.pk := pk; models.row := t |} db in
    (Return (task_views.Response_200
               (task_serializers.TaskSerializer.data task)), db').
Proof.
  intros Hu Ht Hown. unfold task_views.TaskToggleCompletionView.update.
  pose proof (task_get_object_owner request user pk t db Hu Ht Hown) as Hget.
  rewrite (bind_return _ _ _ _ _ Hget).
  reflexivity.
Qed.

(** The next primary key is not in use. *)
Lemma foldr_max_ge (l : list Z) k : k ∈ l → k ≤ foldr Z.max 0 l.
Proof.
  induction l as [|x l IH]; intros Hin; [by apply elem_of_nil in Hin|].
  apply elem_of_cons in Hin as [->|Hin]; simpl; [lia|].
  specialize (IH Hin). lia.
Qed.

Lemma next_pk_fresh {R} (table : gmap Z R) :
  table !! models.next_pk table = None.
Proof.
  destruct (table !! models.next_pk table) as [r|] eqn:Hlook; [|done].
  assert (models.next_pk table ∈ (map_to_list table).*1) as Hin.
  { apply list_elem_of_fmap. exists (models.next_pk table, r).
    split; [done|]. by apply elem_of_map_to_list. }
  apply foldr_max_ge in Hin. unfold models.next_pk in Hin at 1. lia.
Qed.





(** ** Filters *)

Lemma filter_char_lookup {R} (lookup : string → R → bool) value
    (qs : gmap Z R) k r :
  django_filters.filter_char lookup value qs !! k = Some r
  ↔ qs !! k = Some r ∧ (value ≠ "" → lookup value r = true).
Proof.
  unfold django_filters.filter_char. case_bool_decide as Hempty.
  - naive_solver.
  - rewrite map_lookup_filter_Some. naive_solver.
Qed.

Lemma filter_option_lookup {A R} (lookup : A → R → bool) value
    (qs : gmap Z R) k r :
  django_filters.filter_option lookup value qs !! k = Some r
  ↔ qs !! k = Some r ∧ (∀ v, value = Some v → lookup v r = true).
Proof.
  unfold django_filters.filter_option. destruct value as [v|].
  - rewrite map_lookup_filter_Some. naive_solver.
  - naive_solver.
Qed.

Lemma filter_created_on_lookup `{Framework} (qs : gmap Z models.Task) d k t :
  task_filters.DateFilter.filter_created_on qs d !! k = Some t
  ↔ qs !! k = Some t
    ∧ task_filters.make_aware
        (task_filters.datetime_combine d task_filters.time_min)
      ≤ models.creation_time t
      ≤ task_filters.make_aware
          (task_filters.datetime_combine d task_filters.time_max).
Proof.
  unfold task_filters.DateFilter.filter_created_on,
    task_filters.DateFilter._get_day_range.
  by rewrite map_lookup_filter_Some.
Qed.

(** The instants between the start and the end of local day [d] are the
    instants whose local date is [d]. *)
Lemma day_range_local_date `{Framework} d instant :
  task_filters.make_aware (task_filters.datetime_combine d task_filters.time_min)
  ≤ instant
  ≤ task_filters.make_aware (task_filters.datetime_combine d task_filters.time_max)
  ↔ task_filters.local_date instant = d.
Proof.
  unfold task_filters.make_aware, task_filters.datetime_combine,
    task_filters.local_date, task_filters.time_min, task_filters.time_max,
    task_filters.day. simpl.
  pose proof (Z.div_mod (instant + utcoffset) 86400000000).
  pose proof (Z.mod_pos_bound (instant + utcoffset) 86400000000).
  lia.
Qed.

(** The filter set keeps the rows that satisfy every supplied filter. *)
Lemma TaskFilter_filter_queryset_lookup `{Framework} value
    (qs : gmap Z models.Task) k t :
  task_filters.TaskFilter.filter_queryset value qs !! k = Some t
  ↔ qs !! k = Some t ∧ contract.satisfies value t.
Proof.
  unfold task_filters.TaskFilter.filter_queryset, contract.satisfies.
  rewrite filter_option_lookup.
  assert (∀ q : gmap Z models.Task,
    match task_filters.TaskFilter.created_on value with
    | Some d => task_filters.DateFilter.filter_created_on q d
    | None => q
    end !! k = Some t
    ↔ q !! k = Some t
      ∧ ∀ d, task_filters.TaskFilter.created_on value = Some d →
             task_filters.make_aware
               (task_filters.datetime_combine d task_filters.time_min)
             ≤ models.creation_time t
             ≤ task_filters.make_aware
                 (task_filters.datetime_combine d task_filters.time_max))
    as Hon.
  { intros q. destruct (task_filters.TaskFilter.created_on value) as [d|].
    - rewrite filter_created_on_lookup. naive_solver.
    - naive_solver. }
  rewrite Hon, !filter_option_lookup, !filter_char_lookup.
  unfold task_filters.completed_exact,
    task_filters.DateFilter.creation_time__date__gte,
    task_filters.DateFilter.creation_time__date__lte,
    task_filters.description_iexact, task_filters.description_icontains,
    task_filters.description_istartswith, task_filters.description_iregex.
  setoid_rewrite bool_decide_eq_true.
  tauto.
Qed.


(** C5. For every date [d], [created_on=d] keeps exactly the tasks whose
    creation instant lies between the start of day [d] (00:00:00.000000)
    and its end (23:59:59.999999), both included, on the local clock of the
    configured time zone; these are the tasks whose local creation date is
    [d]. A task created at 23:59:59 local time on [d] is kept; one created
    at 00:00:01 local time on the next day is not. *)
Theorem C5_created_on_is_the_local_day `{Framework}
    (queryset : gmap Z models.Task) (d : Z) (k : Z) (t : models.Task) :
  queryset !! k = Some t →
  let start_of_day :=
    task_filters.make_aware
      (task_filters.datetime_combine d
         {| task_filters.hour := 0; task_filters.minute := 0;
            task_filters.second := 0; task_filters.microsecond := 0 |}) in
  let end_of_day :=
    task_filters.make_aware
      (task_filters.datetime_combine d
         {| task_filters.hour := 23; task_filters.minute := 59;
            task_filters.second := 59; task_filters.microsecond := 999999 |}) in
  let last_second :=
    task_filters.make_aware
      (task_filters.datetime_combine d
         {| task_filters.hour := 23; task_filters.minute := 59;
            task_filters.second := 59; task_filters.microsecond := 0 |}) in
  let next_day :=
    task_filters.make_aware
      (task_filters.datetime_combine (d + 1)
         {| task_filters.hour := 0; task_filters.minute := 0;
            task_filters.second := 1; task_filters.microsecond := 0 |}) in
  (∀ k' t', task_filters.DateFilter.filter_created_on queryset d !! k' = Some t'
            ↔ queryset !! k' = Some t'
              ∧ start_of_day ≤ models.creation_time t' ≤ end_of_day)
  ∧ (start_of_day ≤ models.creation_time t ≤ end_of_day
     ↔ task_filters.local_date (models.creation_time t) = d)
  ∧ (models.creation_time t = last_second →
     task_filters.DateFilter.filter_created_on queryset d !! k = Some t)
  ∧ (models.creation_time t = next_day →
     task_filters.DateFilter.filter_created_on queryset d !! k = None).
Proof.
  intros Hk start_of_day end_of_day last_second next_day.
  split_and!.
  - intros k' t'. apply filter_created_on_lookup.
  - apply day_range_local_date.
  - intros Hct. apply filter_created_on_lookup. split; [done|].
    rewrite Hct. unfold last_second, task_filters.make_aware,
      task_filters.datetime_combine, task_filters.time_min,
      task_filters.time_max, task_filters.day. simpl. lia.
  - intros Hct.
    destruct (task_filters.DateFilter.filter_created_on queryset d !! k)
      as [t'|] eqn:Hlook; [|done].
    apply filter_created_on_lookup in Hlook as [Hk' Hrange].
    assert (t' = t) as -> by congruence.
    rewrite Hct in Hrange. revert Hrange.
    unfold next_day, task_filters.make_aware,
      task_filters.datetime_combine, task_filters.time_min,
      task_filters.time_max, task_filters.day. simpl. lia.
Qed.

(** With local time three hours behind UTC, Alice's task 1 was created at
    23:59:59 on 2025-08-10 and her task 2 at 00:00:01 on 2025-08-11. *)
Lemma C5_created_on_is_the_local_day_witness :
  task_filters.DateFilter.filter_created_on (H := sample.framework)
    (models.Task_objects sample.db) 20310 !! 1 = Some sample.groceries
  ∧ task_filters.DateFilter.filter_created_on (H := sample.framework)
      (models.Task_objects sample.db) 20310 !! 2 = None.
Proof.
  split.
  - apply (C5_created_on_is_the_local_day (H := sample.framework)
             (models.Task_objects sample.db) 20310 1 sample.groceries);
      reflexivity.
  - apply (C5_created_on_is_the_local_day (H := sample.framework)
             (models.Task_objects sample.db) 20310 2 sample.laptop);
      reflexivity.
Defined.

(** ** The list of tasks and the shortened description *)

Lemma slice_to_short n s : (String.length s ≤ n)%nat → text.slice_to n s = s.
Proof.
  revert n. induction s as [|c s IH]; intros [|n] Hlen; simpl in *;
    try done; try lia.
  f_equal. apply IH. lia.
Qed.

Lemma slice_to_length n s :
  (n ≤ String.length s)%nat → String.length (text.slice_to n s) = n.
Proof.
  revert n. induction s as [|c s IH]; intros [|n] Hlen; simpl in *;
    try done; try lia.
  f_equal. apply IH. lia.
Qed.

Lemma append_empty_r s : s +:+ "" = s.
Proof.
  induction s as [|c s IH]; [done|].
  change (String c (s +:+ "") = String c s). by rewrite IH.
Qed.

(** [Task.__str__] on a long and on a short description. *)
Lemma Task_str_long t :
  (50 < String.length (models.description t))%nat →
  models.Task_str t = text.slice_to 50 (models.description t) +:+ "...".
Proof.
  intros Hlen. unfold models.Task_str.
  by rewrite (proj2 (Nat.ltb_lt _ _) Hlen).
Qed.

Lemma Task_str_short t :
  (String.length (models.description t) ≤ 50)%nat →
  models.Task_str t = models.description t.
Proof.
  intros Hlen. unfold models.Task_str.
  rewrite (proj2 (Nat.ltb_ge _ _) Hlen). cbv iota. rewrite append_empty_r.
  by apply slice_to_short.
Qed.

(** What listing does for an authenticated user. *)
Lemma task_list_run `{Framework} now request user db :
  Request.user request = Some user →
  task_urls.serve now task_urls.task_list GET request db
  = match task_filters.TaskFilter.qs (Request.query_params request)
            (filter (λ kv, models.user kv.2 = models.pk user)
                    (models.Task_objects db)) with
    | inl errors =>
        ({| Response.status_code := 400; Response.data := Errors errors |}, db)
    | inr filtered =>
        ({| Response.status_code := 200;
            Response.data :=
              Results (size filtered)
                (map_imap (λ k r, Some
                   (task_serializers.ListTasksSerializer.data
                      {| models.pk := k; models.row := r |})) filtered) |}, db)
    end.
Proof.
  intros Hu. unfold task_urls.serve, dispatch.
  rewrite (bind_return _ _ _ _ _
             (task_check_permissions request db ltac:(by rewrite Hu))).
  simpl. unfold task_views.TaskListView.list, task_views.get_queryset.
  unfold mbind, M_bind, read_db, mret, M_ret. rewrite Hu. simpl.
  assert (filter (λ kv : Z * models.Task, Some (models.user kv.2) = Some (models.pk user))
            (models.Task_objects db)
          = filter (λ kv, models.user kv.2 = models.pk user)
              (models.Task_objects db)) as ->.
  { apply map_filter_ext. intros k t _. simpl. split; congruence. }
  by destruct (task_filters.TaskFilter.qs _ _).
Qed.


Lemma Task_str_cases t :
  models.Task_str t
  = if (50 <? String.length (models.description t))%nat
    then text.slice_to 50 (models.description t) +:+ "..."
    else models.description t.
Proof.
  destruct (50 <? String.length (models.description t))%nat eqn:Hlen.
  - apply Task_str_long. by apply Nat.ltb_lt.
  - apply Task_str_short. by apply Nat.ltb_ge.
Qed.





(** ** Keys in URLs: [int(str(k)) = k] *)

Lemma is_nat_pretty_N_char r :
  (r < 10)%N → Ascii.is_nat (pretty_N_char r) = Some (N.to_nat r).
Proof.
  intros Hr.
  assert (r = 0 ∨ r = 1 ∨ r = 2 ∨ r = 3 ∨ r = 4 ∨ r = 5 ∨ r = 6 ∨ r = 7
          ∨ r = 8 ∨ r = 9)%N as Hcases by lia.
  destruct_or!; subst; reflexivity.
Qed.

Lemma int_digits_pretty_N_go x s :
  (0 < x)%N →
  text.int_digits None (pretty_N_go x s) = text.int_digits (Some x) s.
Proof.
  revert s. induction (N.lt_wf_0 x) as [x _ IH]. intros s Hx.
  rewrite pretty_N_go_step by done.
  assert (x `mod` 10 < 10)%N as Hr by (apply N.mod_lt; lia).
  assert (x = 10 * (x `div` 10) + x `mod` 10)%N as Hx10
    by (apply N.div_mod; lia).
  destruct (decide (x `div` 10 = 0)%N) as [Hq|Hq].
  - rewrite Hq, pretty_N_go_0. simpl.
    rewrite is_nat_pretty_N_char by done. simpl.
    f_equal. f_equal. lia.
  - rewrite IH; [|apply N.div_lt; lia|lia]. simpl.
    rewrite is_nat_pretty_N_char by done. simpl.
    f_equal. f_equal. lia.
Qed.

Lemma int_no_sign s :
  (∀ s', s ≠ String "-" s') →
  text.int s = Z.of_N <$> text.int_digits None s.
Proof.
  intros Hne. destruct s as [|a s]; [done|].
  destruct (decide (a = "-"%char)) as [->|Ha]; [by destruct (Hne s)|].
  destruct a as [[] [] [] [] [] [] [] []]; done.
Qed.

Lemma int_str k : text.int (text.str k) = Some k.
Proof.
  unfold text.str. destruct k as [|p|p].
  - reflexivity.
  - change (pretty (Z.pos p)) with (pretty_N_go (N.pos p) "").
    rewrite int_no_sign.
    + by rewrite int_digits_pretty_N_go.
    + intros s'. by apply pretty_N_go_ne_dash.
  - change (pretty (Z.neg p)) with (String "-" (pretty_N_go (N.pos p) "")).
    simpl. by rewrite int_digits_pretty_N_go.
Qed.


(** ** Serializer validation in general *)

(** Validation does not touch the database and fails with a
    [ValidationError] only. *)
Lemma is_valid_cases {R} (fields : list (serializers.Field R)) partial data db :
  (∃ validated_data,
     serializers.is_valid fields partial data db = (Return validated_data, db))
  ∨ (∃ errors,
       serializers.is_valid fields partial data db
       = (Raise (ValidationError errors), db)).
Proof.
  unfold serializers.is_valid, mbind, M_bind, read_db.
  destruct (foldl _ _ fields) as [errors validated_data].
  case_bool_decide; [left|right]; by eexists.
Qed.

(** The validated data have entries for declared fields only. *)
Lemma validate_fields_keys {R} (fields : list (serializers.Field R))
    partial db data acc name :
  is_Some ((foldl (λ acc field,
                     serializers.validate_field partial db data field acc)
                  acc fields).2 !! name) →
  is_Some (acc.2 !! name) ∨ name ∈ serializers.field_name <$> fields.
Proof.
  revert acc. induction fields as [|field fields IH]; intros acc Hname.
  - by left.
  - simpl in Hname. apply IH in Hname as [Hname|Hname].
    2:{ right. rewrite fmap_cons. by apply list_elem_of_further. }
    destruct (decide (name = serializers.field_name field)) as [->|Hne].
    { right. rewrite fmap_cons. apply list_elem_of_here. }
    left. revert Hname. unfold serializers.validate_field.
    repeat case_match; simpl; rewrite ?lookup_insert_ne by done; done.
Qed.

Lemma is_valid_keys {R} (fields : list (serializers.Field R)) partial data db
    validated_data db' name :
  serializers.is_valid fields partial data db = (Return validated_data, db') →
  name ∉ serializers.field_name <$> fields →
  validated_data !! name = None.
Proof.
  unfold serializers.is_valid, mbind, M_bind, read_db.
  destruct (foldl _ _ fields) as [errors vd] eqn:Hfold.
  case_bool_decide; [|done]. intros [= <- <-] Hnot.
  destruct (vd !! name) as [v|] eqn:Hv; [|done].
  destruct (validate_fields_keys fields partial db data (∅, ∅) name)
    as [Hempty|Hin].
  - rewrite Hfold. simpl. by rewrite Hv.
  - simpl in Hempty. rewrite lookup_empty in Hempty. by destruct Hempty.
  - done.
Qed.


(** ** Profile views *)

Lemma profile_check_permissions request db :
  is_Some (Request.user request) →
  check_permissions user_views.UserProfileViewSet.permission_classes request db
  = (Return (), db).
Proof.
  intros Hu. unfold user_views.UserProfileViewSet.permission_classes. simpl.
  by rewrite bool_decide_eq_true_2.
Qed.

(** The profile lookup by the decimal spelling of a stored key: staff and
    the user themselves get the row, anybody else is refused. *)
Lemma profile_get_object request user k u db :
  Request.user request = Some user →
  models.User_objects db !! k = Some u →
  user_views.UserProfileViewSet.get_object request (text.str k) db
  = if models.is_staff (models.row user) || bool_decide (k = models.pk user)
    then (Return {| models.pk := k; models.row := u |}, db)
    else (Raise (PermissionDenied
                   "You do not have permission to perform this action."), db).
Proof.
  intros Hu Hk. unfold user_views.UserProfileViewSet.get_object, get_object.
  rewrite int_str.
  unfold user_views.UserProfileViewSet.get_queryset, mbind, M_bind, read_db,
    mret, M_ret. rewrite Hk.
  unfold user_views.UserProfileViewSet.permission_classes. simpl.
  unfold permissions.IsOwnerOrStaff_has_object_permission,
    permissions.IsOwner_has_object_permission, permission_denied, raise.
  rewrite Hu. simpl.
  destruct (models.is_staff (models.row user)); simpl; [done|].
  destruct (decide (k = models.pk user)) as [->|Hne].
  - by rewrite !bool_decide_eq_true_2.
  - rewrite !bool_decide_eq_false_2; [done|done|congruence].
Qed.



Lemma profile_destroy_run `{Framework} request user k u db :
  Request.user request = Some user →
  models.User_objects db !! k = Some u →
  user_urls.serve (user_urls.user_profile (text.str k)) DELETE request db
  = if models.is_staff (models.row user) || bool_decide (k = models.pk user)
    then ({| Response.status_code := 204; Response.data := NoBody |},
          models.User_delete {| models.pk := k; models.row := u |} db)
    else ({| Response.status_code := 403;
             Response.data :=
               Detail "You do not have permission to perform this action." |},
          db).
Proof.
  intros Hu Hk. unfold user_urls.serve, dispatch. simpl.
  rewrite (bind_return _ _ _ _ _
             (profile_check_permissions request db ltac:(by rewrite Hu))).
  pose proof (profile_get_object request user k u db Hu Hk) as Hget.
  unfold user_views.UserProfileViewSet.destroy.
  destruct (models.is_staff (models.row user) || bool_decide (k = models.pk user)).
  - by rewrite !(bind_return _ _ _ _ _ Hget).
  - by rewrite (bind_raise _ _ _ _ _ Hget).
Qed.



(** The retrieve view compares the key as text: Alice asking for her own
    profile under the spelling "01" is refused, while the table lookup
    reads "01" as 1 (Carol, who is staff, gets Alice's profile there). *)
Example profile_key_spelling :
  Response.status_code
    (user_urls.serve (H := sample.framework) (user_urls.user_profile "01") GET
       (sample.request sample.alice [] []) sample.db).1 = 403
  ∧ (user_urls.serve (H := sample.framework) (user_urls.user_profile "01") GET
       (sample.request sample.carol [] []) sample.db).1
    = {| Response.status_code := 200;
         Response.data :=
           Data (user_serializers.UserSerializer.data (H := sample.framework)
                   sample.alice) |}.
Proof. split; reflexivity. Qed.

(** ** The list of users *)

(** C3. For an authenticated principal [P] (a stored user), the base
    collection of the user list is the whole user table when [P] is staff
    or superuser, and otherwise the one-row table that holds [P] under
    [P]'s key; without query parameters a regular user's list response has
    count 1 and the single entry is [P]'s. *)
Theorem C3_user_list_visibility `{Framework} (P : models.Instance models.User)
    (request : Request.t) (db : models.Database) :
  Request.user request = Some P →
  models.User_objects db !! models.pk P = Some (models.row P) →
  user_views.UserListViewSet.get_queryset request db
  = (Return (if models.is_staff (models.row P)
                || models.is_superuser (models.row P)
             then models.User_objects db
             else {[models.pk P := models.row P]}), db)
  ∧ (models.is_staff (models.row P) = false →
     models.is_superuser (models.row P) = false →
     Request.query_params request = ∅ →
     user_urls.serve user_urls.user_list GET request db
     = ({| Response.status_code := 200;
           Response.data :=
             Results 1 {[models.pk P := user_serializers.UserSerializer.data P]} |},
        db)).
Proof.
  intros Hu HP.
  assert (filter (λ kv : Z * models.User, kv.1 = models.pk P)
            (models.User_objects db)
          = {[models.pk P := models.row P]}) as Hsingle.
  { apply map_eq. intros k. apply option_eq. intros u.
    rewrite map_lookup_filter_Some, lookup_singleton_Some. simpl.
    split.
    - intros [Hk ->]. split; [done|congruence].
    - intros [<- <-]. done. }
  assert (user_views.UserListViewSet.get_queryset request db
          = (Return (if models.is_staff (models.row P)
                        || models.is_superuser (models.row P)
                     then models.User_objects db
                     else {[models.pk P := models.row P]}), db)) as Hqs.
  { unfold user_views.UserListViewSet.get_queryset, mbind, M_bind, read_db.
    rewrite Hu. destruct (_ || _); [done|]. by rewrite Hsingle. }
  split; [done|].
  intros Hstaff Hsuper Hparams. unfold user_urls.serve, dispatch. simpl.
  rewrite bool_decide_eq_true_2 by (by rewrite Hu). simpl.
  unfold mbind at 1. unfold M_bind at 1. unfold mret, M_ret.
  unfold user_views.UserListViewSet.list.
  rewrite (bind_return _ _ _ _ _ Hqs).
  rewrite Hstaff, Hsuper, Hparams. simpl.
  change (user_filters.UserFilter.filter_queryset ∅ ?q) with q.
  unfold mret, M_ret. rewrite map_size_singleton.
  do 3 f_equal. apply map_eq. intros k. rewrite map_lookup_imap.
  destruct (decide (k = models.pk P)) as [->|Hne].
  - rewrite !lookup_singleton_eq. simpl. by destruct P.
  - by rewrite !lookup_singleton_ne.
Qed.

(** Bob, a regular user, and Carol, who is staff. *)
Lemma C3_user_list_visibility_witness :
  user_urls.serve (H := sample.framework) user_urls.user_list GET
    (sample.request sample.bob [] []) sample.db
  = ({| Response.status_code := 200;
        Response.data :=
          Results 1 {[2 := user_serializers.UserSerializer.data
                             (H := sample.framework) sample.bob]} |},
     sample.db)
  ∧ user_views.UserListViewSet.get_queryset
      (sample.request sample.carol [] []) sample.db
    = (Return (models.User_objects sample.db), sample.db).
Proof.
  split.
  - apply (C3_user_list_visibility (H := sample.framework) sample.bob
             (sample.request sample.bob [] []) sample.db); reflexivity.
  - apply (C3_user_list_visibility (H := sample.framework) sample.carol
             (sample.request sample.carol [] []) sample.db); reflexivity.
Defined.

(** ** One field among the validated data *)



(** ** Registration *)

Lemma register_run `{Framework} request db :
  user_urls.serve user_urls.user_register POST request db
  = match serializers.is_valid user_serializers.UserCreateSerializer.fields
            false (Request.data request) db with
    | (Return validated_data, _) =>
        let k := models.next_pk (models.User_objects db) in
        let r := user_serializers.UserCreateSerializer.User_of_kwargs
                   validated_data in
        ({| Response.status_code := 201;
            Response.data :=
              Data (user_serializers.UserCreateSerializer.data
                      {| models.pk := k; models.row := r |}) |},
         {| models.User_objects := <[k := r]> (models.User_objects db);
            models.Task_objects := models.Task_objects db |})
    | (Raise exc, _) => (exception_handler exc, db)
    end.
Proof.
  unfold user_urls.serve, dispatch. simpl.
  unfold mbind at 1. unfold M_bind at 1. unfold mret, M_ret.
  unfold user_views.UserRegistrationViewSet.create.
  destruct (is_valid_cases user_serializers.UserCreateSerializer.fields
              false (Request.data request) db)
    as [[validated_data Hvalid]|[errors Hvalid]].
  - by rewrite (bind_return _ _ _ _ _ Hvalid), Hvalid.
  - by rewrite (bind_raise _ _ _ _ _ Hvalid), Hvalid.
Qed.

(** The representation of a new user: the password is write-only. *)
Lemma UserCreateSerializer_data `{Framework} instance :
  user_serializers.UserCreateSerializer.data instance
  = list_to_map
      [("username", VStr (models.username (models.row instance)));
       ("email", VStr (models.email (models.row instance)));
       ("first_name", VStr (models.first_name (models.row instance)));
       ("last_name", VStr (models.last_name (models.row instance)));
       ("is_active", VBool (models.is_active (models.row instance)))].
Proof. reflexivity. Qed.









(** ** Updating one's own profile *)

(** What the update serializer writes: the role flags, the activity flag
    and the username stay; the other users and the tasks stay. *)
Lemma UserUpdateSerializer_update_frame `{Framework} partial data db0 db1
    instance validated_data db :
  serializers.is_valid user_serializers.UserUpdateSerializer.fields partial
    data db0 = (Return validated_data, db1) →
  ∃ u,
    user_serializers.UserUpdateSerializer.update instance validated_data db
    = (Return {| models.pk := models.pk instance; models.row := u |},
       {| models.User_objects :=
            <[models.pk instance := u]> (models.User_objects db);
          models.Task_objects := models.Task_objects db |})
    ∧ models.username u = models.username (models.row instance)
    ∧ models.is_staff u = models.is_staff (models.row instance)
    ∧ models.is_active u = models.is_active (models.row instance)
    ∧ models.is_superuser u = models.is_superuser (models.row instance)
    ∧ models.password u
      = match validated_data !! "password" with
        | Some (VStr raw) => make_password raw
        | _ => models.password (models.row instance)
        end.
Proof.
  intros Hvalid.
  assert (∀ name, name ∈ ["username"; "is_staff"; "is_active"; "is_superuser"] →
                  delete "password" validated_data !! name = None) as Hkeys.
  { intros name Hname. rewrite lookup_delete_ne by set_solver.
    apply (is_valid_keys _ _ _ _ _ _ name Hvalid). cbn. set_solver. }
  eexists. split; [reflexivity|]. simpl.
  rewrite !Hkeys by set_solver. done.
Qed.






(** ** The scenario of the specification, run on the sample database *)

(** Alice creates a task with a blank description (400), then "Buy milk"
    (201, not completed, key 5), toggles it (completed), finds it under
    [completed=true] and not under [completed=false], deletes it (204) and
    asks for it again (404). *)
Example scenario :
  let alice data params := sample.request sample.alice data params in
  let serve := task_urls.serve (H := sample.framework) in
  let blank :=
    serve 100 task_urls.task_create POST
      (alice [("description", VStr "")] []) sample.db in
  let created :=
    serve 100 task_urls.task_create POST
      (alice [("description", VStr "Buy milk")] []) sample.db in
  let toggled :=
    serve 200 (task_urls.task_toggle_complete 5) PATCH (alice [] []) created.2 in
  let done :=
    serve 300 task_urls.task_list GET (alice [] [("completed", "true")])
      toggled.2 in
  let open :=
    serve 300 task_urls.task_list GET (alice [] [("completed", "false")])
      toggled.2 in
  let deleted :=
    serve 400 (task_urls.task_delete 5) DELETE (alice [] []) toggled.2 in
  let gone :=
    serve 500 (task_urls.task_detail 5) GET (alice [] []) deleted.2 in
  blank.1 = {| Response.status_code := 400;
               Response.data := Errors {["description" := "blank"]} |}
  ∧ Response.status_code created.1 = 201
  ∧ models.Task_objects created.2 !! 5
    = Some {| models.user := 1; models.description := "Buy milk";
              models.completed := false; models.creation_time := 100;
              models.updated_at := 100 |}
  ∧ (models.completed <$> models.Task_objects toggled.2 !! 5) = Some true
  ∧ (∃ n results, Response.data done.1 = Results n results
                  ∧ is_Some (results !! 5))
  ∧ (∃ n results, Response.data open.1 = Results n results
                  ∧ results !! 5 = None)
  ∧ Response.status_code deleted.1 = 204
  ∧ Response.status_code gone.1 = 404.
Proof.
  split_and!; try reflexivity.
  - eexists _, _. split; [reflexivity|]. by eexists.
  - eexists _, _. split; reflexivity.
Qed.

(** Case-insensitive matching on the descriptions of the sample tasks. *)
Example lookups :
  text.icontains "GROCERIES" "Buy groceries" = true
  ∧ text.istartswith "buy" "Buy new laptop" = true
  ∧ text.iexact "buy groceries" "Buy groceries" = true
  ∧ text.icontains "Buy" "Call plumber" = false
  ∧ text.strip "  Buy milk  " = "Buy milk"
  ∧ text.int "01" = Some 1
  ∧ text.int "x1" = None
  ∧ text.str 42 = "42".
Proof. repeat split. Qed.

(** * Further properties of the views *)

(** ** Who may call what *)

(** X1. A request without an authenticated user is answered 401 by every
    task route and by the profile and list routes of the user API, for
    every method, before the method is even looked at, and changes
    nothing. *)
Theorem unauthenticated_is_401 `{Framework} (now : Z) (request : Request.t)
    (db : models.Database) (method : Method) :
  Request.user request = None →
  (∀ route, task_urls.serve now route method request db
            = (exception_handler NotAuthenticated, db))
  ∧ (∀ pk, user_urls.serve (user_urls.user_profile pk) method request db
           = (exception_handler NotAuthenticated, db))
  ∧ user_urls.serve user_urls.user_list method request db
    = (exception_handler NotAuthenticated, db).
Proof.
  intros Hu.
  assert (∀ classes handler,
    dispatch (IsAuthenticated :: classes) request handler db
    = (exception_handler NotAuthenticated, db)) as Hdispatch.
  { intros classes handler. unfold dispatch, mbind, M_bind. simpl.
    rewrite Hu. simpl. unfold permission_denied. by rewrite Hu. }
  split_and!; intros; apply Hdispatch.
Qed.

Lemma unauthenticated_is_401_witness :
  task_urls.serve (H := sample.framework) 0 (task_urls.task_delete 1) DELETE
    {| Request.user := None; Request.data := ∅; Request.query_params := ∅ |}
    sample.db
  = ({| Response.status_code := 401;
        Response.data :=
          Detail "Authentication credentials were not provided." |}, sample.db).
Proof.
  apply (unauthenticated_is_401 (H := sample.framework) 0
           {| Request.user := None; Request.data := ∅; Request.query_params := ∅ |}
           sample.db DELETE eq_refl).
Defined.



(** ** What a task request can do to the database *)

(** The owned lookup either returns a task the requester owns or raises
    [Http404]; it never changes the database. *)
Lemma task_get_object_cases request pk db :
  (∃ user t,
     Request.user request = Some user
     ∧ models.Task_objects db !! pk = Some t
     ∧ models.user t = models.pk user
     ∧ task_views.get_object request pk db
       = (Return {| models.pk := pk; models.row := t |}, db))
  ∨ task_views.get_object request pk db = (Raise Http404, db).
Proof.
  destruct (Request.user request) as [user|] eqn:Hu.
  - destruct (models.Task_objects db !! pk) as [t|] eqn:Ht.
    + destruct (decide (models.user t = models.pk user)) as [Hown|Hother].
      * left. exists user, t. split_and!; try done.
        by apply (task_get_object_owner request user).
      * right. apply task_get_object_404. intros t' Ht'. rewrite Hu. simpl.
        congruence.
    + right. apply task_get_object_404. intros t' Ht'. congruence.
  - right. apply task_get_object_404. intros t' _. by rewrite Hu.
Qed.

(** Every task request, whoever sends it, does one of four things to the
    database: nothing; add a task of the requester under a fresh key;
    rewrite a task of the requester, keeping its owner and creation time;
    remove a task of the requester. The user table never changes. *)
Lemma task_serve_effect `{Framework} now route method request db :
  let db' := (task_urls.serve now route method request db).2 in
  models.User_objects db' = models.User_objects db
  ∧ (models.Task_objects db' = models.Task_objects db
     ∨ (∃ user t,
          Request.user request = Some user
          ∧ models.user t = models.pk user
          ∧ models.Task_objects db
              !! models.next_pk (models.Task_objects db) = None
          ∧ models.Task_objects db'
            = <[models.next_pk (models.Task_objects db) := t]>
                (models.Task_objects db))
     ∨ (∃ user k t t',
          Request.user request = Some user
          ∧ models.Task_objects db !! k = Some t
          ∧ models.user t = models.pk user
          ∧ models.user t' = models.user t
          ∧ models.creation_time t' = models.creation_time t
          ∧ models.Task_objects db' = <[k := t']> (models.Task_objects db))
     ∨ (∃ user k t,
          Request.user request = Some user
          ∧ models.Task_objects db !! k = Some t
          ∧ models.user t = models.pk user
          ∧ models.Task_objects db' = delete k (models.Task_objects db))).
Proof.
  intros db'. unfold db'. clear db'.
  destruct (Request.user request) as [user|] eqn:Hu.
  2:{ destruct (unauthenticated_is_401 now request db method Hu) as [-> _].
      split; [done|by left]. }
  assert (check_permissions task_views.permission_classes request db
          = (Return (), db)) as Hperm.
  { apply task_check_permissions. by rewrite Hu. }
  unfold task_urls.serve, dispatch. rewrite (bind_return _ _ _ _ _ Hperm).
  destruct (task_urls.handler now route method request) as [h|] eqn:Hh.
  2:{ split; [done|by left]. }
  destruct route, method; simpl in Hh; simplify_eq.
  - (* list *)
    pose proof (task_list_run now request user db Hu) as Hlist.
    unfold task_urls.serve, dispatch in Hlist.
    rewrite (bind_return _ _ _ _ _ Hperm) in Hlist. simpl in Hlist.
    rewrite Hlist. destruct (task_filters.TaskFilter.qs _ _);
      (split; [done|by left]).
  - (* create *)
    rewrite (task_create_run now request user db Hu).
    destruct (Request.data request !! "description") as [value|];
      [|split; [done|by left]].
    destruct (serializers.CharField_run_validation _ _ _ value) as [code|v];
      [split; [done|by left]|].
    simpl. split; [done|]. right. left. eexists user, _.
    split_and!; [done| |apply next_pk_fresh|reflexivity]. done.
  - (* detail *)
    unfold task_views.TaskDetailView.retrieve.
    destruct (task_get_object_cases request pk db)
      as [(u & t & _ & _ & _ & Hget)|Hget].
    + rewrite (bind_return _ _ _ _ _ Hget). split; [done|by left].
    + rewrite (bind_raise _ _ _ _ _ Hget). split; [done|by left].
  - (* update description *)
    destruct (task_get_object_cases request pk db)
      as [(u & t & Hu' & Ht & Hown & Hget)|Hget].
    + assert (u = user) as -> by congruence.
      rewrite (task_update_run now request user pk t db Hu Ht Hown).
      destruct (Request.data request !! "description") as [value|].
      * destruct (serializers.CharField_run_validation _ _ _ value)
          as [code|v]; [split; [done|by left]|].
        simpl. split; [done|]. right. right. left.
        eexists user, pk, t, _. split_and!; [done..| | |reflexivity]; done.
      * simpl. split; [done|]. right. right. left.
        eexists user, pk, t, _. split_and!; [done..| | |reflexivity]; done.
    + unfold task_views.TaskUpdateDescriptionView.update.
      rewrite (bind_raise _ _ _ _ _ Hget). split; [done|by left].
  - (* toggle *)
    destruct (task_get_object_cases request pk db)
      as [(u & t & Hu' & Ht & Hown & Hget)|Hget].
    + assert (u = user) as -> by congruence.
      rewrite (task_toggle_run now request user pk t db Hu Ht Hown).
      simpl. split; [done|]. right. right. left.
      eexists user, pk, t, _. split_and!; [done..| | |reflexivity]; done.
    + unfold task_views.TaskToggleCompletionView.update.
      rewrite (bind_raise _ _ _ _ _ Hget). split; [done|by left].
  - (* delete *)
    unfold task_views.TaskDeleteView.destroy.
    destruct (task_get_object_cases request pk db)
      as [(u & t & Hu' & Ht & Hown & Hget)|Hget].
    + assert (u = user) as -> by congruence.
      rewrite !(bind_return _ _ _ _ _ Hget). simpl.
      split; [done|]. right. right. right.
      exists user, pk, t. by split_and!.
    + rewrite (bind_raise _ _ _ _ _ Hget). split; [done|by left].
Qed.

(** X3. No request to the task API, whatever its route, method, sender and
    payload, changes or removes a task that the sender does not own, and
    none changes the user table. *)
Theorem task_requests_leave_foreign_tasks `{Framework} (now : Z)
    (route : task_urls.Route) (method : Method) (request : Request.t)
    (db : models.Database) (k : Z) (t : models.Task) :
  models.Task_objects db !! k = Some t →
  Some (models.user t) ≠ models.pk <$> Request.user request →
  models.Task_objects (task_urls.serve now route method request db).2 !! k
  = Some t
  ∧ models.User_objects (task_urls.serve now route method request db).2
    = models.User_objects db.
Proof.
  intros Hk Hforeign.
  destruct (task_serve_effect now route method request db) as [Husers Htasks].
  split; [|done].
  destruct Htasks as [->|[(user & t' & Hu & _ & Hfresh & ->)
    |[(user & k' & t0 & t' & Hu & Hk' & Hown & _ & _ & ->)
     |(user & k' & t0 & Hu & Hk' & Hown & ->)]]].
  - done.
  - rewrite lookup_insert_ne; [done|]. intros <-. congruence.
  - rewrite lookup_insert_ne; [done|]. intros <-.
    rewrite Hu in Hforeign. simpl in Hforeign. congruence.
  - rewrite lookup_delete_ne; [done|]. intros <-.
    rewrite Hu in Hforeign. simpl in Hforeign. congruence.
Qed.

(** Carol, although staff, cannot toggle Alice's task 1. *)
Lemma task_requests_leave_foreign_tasks_witness :
  models.Task_objects
    (task_urls.serve (H := sample.framework) 0
       (task_urls.task_toggle_complete 1) PATCH
       (sample.request sample.carol [] []) sample.db).2 !! 1
  = Some sample.groceries.
Proof.
  apply (task_requests_leave_foreign_tasks (H := sample.framework) 0
           (task_urls.task_toggle_complete 1) PATCH
           (sample.request sample.carol [] []) sample.db 1 sample.groceries).
  - reflexivity.
  - vm_compute. discriminate.
Defined.

(** X4. The owner and the creation time of a task are fixed at creation:
    if a task is stored under a key before and after a request to the task
    API, it has the same owner and the same creation time. *)
Theorem task_owner_is_immutable `{Framework} (now : Z)
    (route : task_urls.Route) (method : Method) (request : Request.t)
    (db : models.Database) (k : Z) (t t' : models.Task) :
  models.Task_objects db !! k = Some t →
  models.Task_objects (task_urls.serve now route method request db).2 !! k
  = Some t' →
  models.user t' = models.user t
  ∧ models.creation_time t' = models.creation_time t.
Proof.
  intros Hk.
  destruct (task_serve_effect now route method request db) as [_ Htasks].
  destruct Htasks as [->|[(user & t1 & Hu & _ & Hfresh & ->)
    |[(user & k' & t0 & t1 & Hu & Hk' & Hown & Huser & Htime & ->)
     |(user & k' & t0 & Hu & Hk' & Hown & ->)]]].
  - intros Hk'. by simplify_eq.
  - rewrite lookup_insert_ne by (intros <-; congruence).
    intros Hk'. by simplify_eq.
  - destruct (decide (k' = k)) as [->|Hne].
    + rewrite lookup_insert_eq. intros [= <-]. by simplify_eq.
    + rewrite lookup_insert_ne by done. intros Hk''. by simplify_eq.
  - destruct (decide (k' = k)) as [->|Hne].
    + by rewrite lookup_delete_eq.
    + rewrite lookup_delete_ne by done. intros Hk''. by simplify_eq.
Qed.

(** Alice renames her task 2. *)
Lemma task_owner_is_immutable_witness :
  ∃ t',
    models.Task_objects
      (task_urls.serve (H := sample.framework) 9
         (task_urls.task_update_description 2) PATCH
         (sample.request sample.alice [("description", VStr "Sell laptop")] [])
         sample.db).2 !! 2 = Some t'
    ∧ models.description t' = "Sell laptop"
    ∧ models.user t' = 1
    ∧ models.creation_time t' = 1754881201000000.
Proof.
  eexists. split; [reflexivity|]. split; [reflexivity|].
  apply (task_owner_is_immutable (H := sample.framework) 9
           (task_urls.task_update_description 2) PATCH
           (sample.request sample.alice [("description", VStr "Sell laptop")] [])
           sample.db 2 sample.laptop).
  - reflexivity.
  - reflexivity.
Defined.

(** ** The list of tasks *)




(** ** Deleting, creating and renaming a task *)

(** X6. When its owner deletes a task, the answer is 204 without a body,
    the task is removed and every other row stays; after that a request for
    the task's detail is answered 404, also for the former owner. *)
Theorem task_delete_removes `{Framework} (now now' : Z)
    (P : models.Instance models.User) (request request' : Request.t)
    (db : models.Database) (pk : Z) (T : models.Task) :
  Request.user request = Some P →
  models.Task_objects db !! pk = Some T →
  models.user T = models.pk P →
  is_Some (Request.user request') →
  let deleted :=
    {| models.User_objects := models.User_objects db;
       models.Task_objects := delete pk (models.Task_objects db) |} in
  task_urls.serve now (task_urls.task_delete pk) DELETE request db
  = ({| Response.status_code := 204; Response.data := NoBody |}, deleted)
  ∧ task_urls.serve now' (task_urls.task_detail pk) GET request' deleted
    = ({| Response.status_code := 404; Response.data := Detail "Not found." |},
       deleted).
Proof.
  intros Hu HT Hown Hu' deleted. split.
  - unfold task_urls.serve.
    apply dispatch_return; [apply task_check_permissions; by rewrite Hu|].
    simpl. unfold task_views.TaskDeleteView.destroy.
    by rewrite !(bind_return _ _ _ _ _
                   (task_get_object_owner request P pk T db Hu HT Hown)).
  - apply (task_request_404 now' request' pk deleted task_urls.task_detail GET);
      [done| |set_solver].
    intros t. unfold deleted. simpl. by rewrite lookup_delete_eq.
Qed.

Lemma task_delete_removes_witness :
  let deleted :=
    {| models.User_objects := models.User_objects sample.db;
       models.Task_objects := delete 3 (models.Task_objects sample.db) |} in
  task_urls.serve (H := sample.framework) 0 (task_urls.task_delete 3) DELETE
    (sample.request sample.alice [] []) sample.db
  = ({| Response.status_code := 204; Response.data := NoBody |}, deleted)
  ∧ task_urls.serve (H := sample.framework) 1 (task_urls.task_detail 3) GET
      (sample.request sample.alice [] []) deleted
    = ({| Response.status_code := 404; Response.data := Detail "Not found." |},
       deleted).
Proof.
  apply (task_delete_removes (H := sample.framework) 0 1 sample.alice
           (sample.request sample.alice [] [])
           (sample.request sample.alice [] []) sample.db 3 sample.plumber).
  - reflexivity.
  - reflexivity.
  - reflexivity.
  - by eexists.
Defined.





(** ** Date filters *)

(** X9. [created_after=d] keeps the tasks created at or after the start of
    local day [d], [created_before=d] those created at or before its end;
    so both together, for the same date, keep what [created_on=d] keeps. *)
Theorem created_after_and_before_is_created_on `{Framework}
    (queryset : gmap Z models.Task) (d : Z) :
  let blank after before on :=
    {| task_filters.TaskFilter.description := "";
       task_filters.TaskFilter.description__contains := "";
       task_filters.TaskFilter.description__startswith := "";
       task_filters.TaskFilter.description__regex := "";
       task_filters.TaskFilter.created_after := after;
       task_filters.TaskFilter.created_before := before;
       task_filters.TaskFilter.created_on := on;
       task_filters.TaskFilter.completed := None |} in
  (∀ k t,
     task_filters.TaskFilter.filter_queryset (blank (Some d) None None)
       queryset !! k = Some t
     ↔ queryset !! k = Some t
       ∧ task_filters.make_aware
           (task_filters.datetime_combine d task_filters.time_min)
         ≤ models.creation_time t)
  ∧ (∀ k t,
       task_filters.TaskFilter.filter_queryset (blank None (Some d) None)
         queryset !! k = Some t
       ↔ queryset !! k = Some t
         ∧ models.creation_time t
           ≤ task_filters.make_aware
               (task_filters.datetime_combine d task_filters.time_max))
  ∧ task_filters.TaskFilter.filter_queryset (blank (Some d) (Some d) None)
      queryset
    = task_filters.TaskFilter.filter_queryset (blank None None (Some d))
        queryset.
Proof.
  intros blank.
  assert (∀ instant,
    d ≤ task_filters.local_date instant
    ↔ task_filters.make_aware
        (task_filters.datetime_combine d task_filters.time_min) ≤ instant)
    as Hafter.
  { intros instant.
    unfold task_filters.make_aware, task_filters.datetime_combine,
      task_filters.local_date, task_filters.time_min, task_filters.day. simpl.
    pose proof (Z.div_mod (instant + utcoffset) 86400000000).
    pose proof (Z.mod_pos_bound (instant + utcoffset) 86400000000). lia. }
  assert (∀ instant,
    task_filters.local_date instant ≤ d
    ↔ instant ≤ task_filters.make_aware
                  (task_filters.datetime_combine d task_filters.time_max))
    as Hbefore.
  { intros instant.
    unfold task_filters.make_aware, task_filters.datetime_combine,
      task_filters.local_date, task_filters.time_max, task_filters.day. simpl.
    pose proof (Z.div_mod (instant + utcoffset) 86400000000).
    pose proof (Z.mod_pos_bound (instant + utcoffset) 86400000000). lia. }
  split_and!.
  - intros k t. rewrite TaskFilter_filter_queryset_lookup.
    unfold contract.satisfies. simpl. rewrite <- Hafter. split.
    + intros (Hk & _ & _ & _ & _ & Ha & _). split; [done|]. by apply Ha.
    + intros [Hk Ha]. split_and!; try done. by intros ? [= <-].
  - intros k t. rewrite TaskFilter_filter_queryset_lookup.
    unfold contract.satisfies. simpl. rewrite <- Hbefore. split.
    + intros (Hk & _ & _ & _ & _ & _ & Hb & _). split; [done|]. by apply Hb.
    + intros [Hk Hb]. split_and!; try done. by intros ? [= <-].
  - apply map_eq. intros k. apply option_eq. intros t.
    rewrite !TaskFilter_filter_queryset_lookup.
    unfold contract.satisfies. simpl. split.
    + intros (Hk & _ & _ & _ & _ & Ha & Hb & _).
      split_and!; try done. intros ? [= <-].
      rewrite <- Hafter, <- Hbefore. split; [by apply Ha|by apply Hb].
    + intros (Hk & _ & _ & _ & _ & _ & _ & Hon & _).
      specialize (Hon d eq_refl). rewrite <- Hafter, <- Hbefore in Hon.
      split_and!; try done; intros ? [= <-]; tauto.
Qed.

(** X10. The [created_on] filters of two different dates have no task in
    common, and every task of the queryset is kept by the filter of
    exactly one date, its local creation date. *)
Theorem created_on_partitions `{Framework} (queryset : gmap Z models.Task)
    (d1 d2 : Z) (k : Z) (t : models.Task) :
  queryset !! k = Some t →
  (d1 ≠ d2 →
   task_filters.DateFilter.filter_created_on queryset d1
   ##ₘ task_filters.DateFilter.filter_created_on queryset d2)
  ∧ (task_filters.DateFilter.filter_created_on queryset d1 !! k = Some t
     ↔ d1 = task_filters.local_date (models.creation_time t)).
Proof.
  intros Hk. split.
  - intros Hne. apply map_disjoint_spec. intros k' t1 t2 H1 H2.
    apply filter_created_on_lookup in H1 as [Hk1 H1].
    apply filter_created_on_lookup in H2 as [Hk2 H2].
    assert (t1 = t2) as -> by congruence.
    apply day_range_local_date in H1. apply day_range_local_date in H2.
    congruence.
  - rewrite filter_created_on_lookup, day_range_local_date. naive_solver.
Qed.

Lemma created_on_partitions_witness :
  task_filters.DateFilter.filter_created_on (H := sample.framework)
    (models.Task_objects sample.db) 20310 !! 2 = None
  ∧ task_filters.DateFilter.filter_created_on (H := sample.framework)
      (models.Task_objects sample.db) 20311 !! 2 = Some sample.laptop.
Proof.
  split.
  - destruct (task_filters.DateFilter.filter_created_on (H := sample.framework)
                (models.Task_objects sample.db) 20310 !! 2) as [t|] eqn:Hk;
      [|done].
    exfalso. revert Hk. vm_compute. discriminate.
  - apply (created_on_partitions (H := sample.framework)
             (models.Task_objects sample.db) 20311 0 2 sample.laptop);
      reflexivity.
Defined.

(** ** Text lookups and the shortened description *)

Lemma startswith_refl s : text.startswith s s = true.
Proof.
  induction s as [|c s IH]; [done|]. simpl. by rewrite decide_True.
Qed.

Lemma startswith_contains p s : text.startswith p s = true → text.contains p s = true.
Proof. intros Hp. destruct s; simpl; by rewrite Hp. Qed.

(** X11. The three description filters are nested: whatever
    [description=s] keeps, [description__startswith=s] keeps, and whatever
    that keeps, [description__contains=s] keeps; and the three look at the
    query up to the case of its letters only. *)
Theorem description_filters_are_nested (queryset : gmap Z models.Task)
    (s s' : string) :
  django_filters.filter_char task_filters.description_iexact s queryset
  ⊆ django_filters.filter_char task_filters.description_istartswith s queryset
  ∧ django_filters.filter_char task_filters.description_istartswith s queryset
    ⊆ django_filters.filter_char task_filters.description_icontains s queryset
  ∧ (text.lower s = text.lower s' → s ≠ "" → s' ≠ "" →
     django_filters.filter_char task_filters.description_iexact s queryset
     = django_filters.filter_char task_filters.description_iexact s' queryset
     ∧ django_filters.filter_char task_filters.description_istartswith s queryset
       = django_filters.filter_char task_filters.description_istartswith s' queryset
     ∧ django_filters.filter_char task_filters.description_icontains s queryset
       = django_filters.filter_char task_filters.description_icontains s' queryset).
Proof.
  split_and!.
  - apply map_subseteq_spec. intros k t. rewrite !filter_char_lookup.
    intros [Hk Hexact]. split; [done|]. intros Hs. specialize (Hexact Hs).
    unfold task_filters.description_iexact, text.iexact in Hexact.
    apply bool_decide_eq_true in Hexact.
    unfold task_filters.description_istartswith, text.istartswith.
    rewrite Hexact. apply startswith_refl.
  - apply map_subseteq_spec. intros k t. rewrite !filter_char_lookup.
    intros [Hk Hstarts]. split; [done|]. intros Hs.
    apply startswith_contains. by apply Hstarts.
  - intros Hlower Hs Hs'.
    split_and!; apply map_eq; intros k; apply option_eq; intros t;
      rewrite !filter_char_lookup;
      unfold task_filters.description_iexact, text.iexact,
        task_filters.description_istartswith, text.istartswith,
        task_filters.description_icontains, text.icontains;
      rewrite Hlower; tauto.
Qed.

Lemma description_filters_are_nested_witness :
  django_filters.filter_char task_filters.description_icontains "GROCERIES"
    (models.Task_objects sample.db)
  = django_filters.filter_char task_filters.description_icontains "groceries"
      (models.Task_objects sample.db).
Proof.
  apply (description_filters_are_nested (models.Task_objects sample.db)
           "GROCERIES" "groceries"); [reflexivity|discriminate..].
Defined.

Lemma length_append (a b : string) :
  String.length (a +:+ b) = (String.length a + String.length b)%nat.
Proof.
  induction a as [|c a IH]; [done|].
  change (S (String.length (a +:+ b))
          = S (String.length a + String.length b))%nat.
  by rewrite IH.
Qed.

Lemma slice_to_append n s extra :
  (n ≤ String.length s)%nat →
  text.slice_to n (text.slice_to n s +:+ extra) = text.slice_to n s.
Proof.
  revert s. induction n as [|n IH]; intros [|c s] Hs; simpl in *;
    try done; try lia.
  change (String c (text.slice_to n (text.slice_to n s +:+ extra))
          = String c (text.slice_to n s)).
  rewrite IH; [done|lia].
Qed.

(** X12. The text a task shows in a list ([__str__]) is never longer than
    53 characters: it has the length of the description when that is at
    most 50, and exactly 53 otherwise; and its first 50 characters are the
    first 50 characters of the description. *)
Theorem Task_str_length (t : models.Task) :
  String.length (models.Task_str t)
  = (if (50 <? String.length (models.description t))%nat then 53%nat
     else String.length (models.description t))
  ∧ (String.length (models.Task_str t) ≤ 53)%nat
  ∧ text.slice_to 50 (models.Task_str t)
    = text.slice_to 50 (models.description t).
Proof.
  rewrite Task_str_cases.
  destruct (50 <? String.length (models.description t))%nat eqn:Hlen.
  - apply Nat.ltb_lt in Hlen.
    rewrite length_append, slice_to_length by lia.
    change (String.length "...") with 3%nat.
    split_and!; [done|lia|]. apply slice_to_append. lia.
  - apply Nat.ltb_ge in Hlen. split_and!; [done|lia|done].
Qed.

(** ** What a request to the user API can do to the database *)

(** The profile lookup returns a stored user that the requester may touch
    (being staff, or that user), or raises an exception; it never changes
    the database. *)
Lemma profile_get_object_cases request pk db :
  (∃ user k u,
     Request.user request = Some user
     ∧ text.int pk = Some k
     ∧ models.User_objects db !! k = Some u
     ∧ (models.is_staff (models.row user) = true ∨ k = models.pk user)
     ∧ user_views.UserProfileViewSet.get_object request pk db
       = (Return {| models.pk := k; models.row := u |}, db))
  ∨ (∃ exc, user_views.UserProfileViewSet.get_object request pk db
            = (Raise exc, db)).
Proof.
  unfold user_views.UserProfileViewSet.get_object, get_object.
  unfold user_views.UserProfileViewSet.get_queryset, mbind, M_bind, read_db,
    mret, M_ret.
  destruct (text.int pk) as [k|]; [|right; by eexists].
  destruct (models.User_objects db !! k) as [u|] eqn:Hk; [|right; by eexists].
  unfold user_views.UserProfileViewSet.permission_classes. simpl.
  unfold permissions.IsOwnerOrStaff_has_object_permission,
    permissions.IsOwner_has_object_permission, permission_denied, raise.
  destruct (Request.user request) as [user|] eqn:Hu; simpl.
  2:{ right. by eexists. }
  destruct (models.is_staff (models.row user)) eqn:Hstaff; simpl.
  { left. exists user, k, u. split_and!; try done. by left. }
  case_bool_decide as Hself; simpl.
  - left. exists user, k, u. split_and!; try done. right. congruence.
  - right. by eexists.
Qed.

(** Every request to the user API does one of four things to the
    database: nothing; add a user who is neither staff nor superuser under
    a fresh key; rewrite a user that the requester may touch, keeping the
    username and the three flags; delete such a user together with that
    user's tasks. *)
Lemma user_serve_effect `{Framework} route method request db :
  let db' := (user_urls.serve route method request db).2 in
  db' = db
  ∨ (∃ u,
       models.is_staff u = false ∧ models.is_superuser u = false
       ∧ models.User_objects db !! models.next_pk (models.User_objects db) = None
       ∧ models.User_objects db'
         = <[models.next_pk (models.User_objects db) := u]>
             (models.User_objects db)
       ∧ models.Task_objects db' = models.Task_objects db)
  ∨ (∃ user k u u',
       Request.user request = Some user
       ∧ (models.is_staff (models.row user) = true ∨ k = models.pk user)
       ∧ models.User_objects db !! k = Some u
       ∧ models.username u' = models.username u
       ∧ models.is_staff u' = models.is_staff u
       ∧ models.is_active u' = models.is_active u
       ∧ models.is_superuser u' = models.is_superuser u
       ∧ models.User_objects db' = <[k := u']> (models.User_objects db)
       ∧ models.Task_objects db' = models.Task_objects db)
  ∨ (∃ user k u,
       Request.user request = Some user
       ∧ (models.is_staff (models.row user) = true ∨ k = models.pk user)
       ∧ models.User_objects db !! k = Some u
       ∧ db' = models.User_delete {| models.pk := k; models.row := u |} db).
Proof.
  intros db'. unfold db'. clear db'.
  unfold user_urls.serve, dispatch.
  destruct (check_permissions (user_urls.permission_classes route) request db)
    as [[[]|exc] db1] eqn:Hperm.
  2:{ assert (db1 = db) as ->.
      { revert Hperm. destruct route; simpl; unfold permission_denied, raise;
          repeat case_match; by intros [= <-]. }
      rewrite (bind_raise _ _ _ _ _ Hperm). by left. }
  assert (db1 = db) as ->.
  { revert Hperm. destruct route; simpl; unfold permission_denied, raise,
      mret, M_ret; repeat case_match; by intros [= <-]. }
  rewrite (bind_return _ _ _ _ _ Hperm).
  destruct (user_urls.handler route method request) as [h|] eqn:Hh;
    [|by left].
  destruct route as [|pk|], method; simpl in Hh; simplify_eq.
  - (* register *)
    pose proof (register_run request db) as Hrun.
    unfold user_urls.serve, dispatch in Hrun.
    rewrite (bind_return _ _ _ _ _ Hperm) in Hrun. simpl in Hrun. rewrite Hrun.
    destruct (serializers.is_valid _ _ _ db) as [[validated_data|exc] db1]
      eqn:Hvalid; [|by left].
    right. left. eexists. simpl.
    split_and!; [| |apply next_pk_fresh|reflexivity|reflexivity].
    + unfold user_serializers.UserCreateSerializer.User_of_kwargs. simpl.
      rewrite (is_valid_keys _ _ _ _ _ _ "is_staff" Hvalid); [done|].
      cbn. set_solver.
    + unfold user_serializers.UserCreateSerializer.User_of_kwargs. simpl.
      rewrite (is_valid_keys _ _ _ _ _ _ "is_superuser" Hvalid); [done|].
      cbn. set_solver.
  - (* retrieve *)
    unfold user_views.UserProfileViewSet.retrieve.
    destruct (negb _ && negb _); [by left|].
    destruct (profile_get_object_cases request pk db)
      as [(user & k & u & _ & _ & _ & _ & Hget)|[exc Hget]].
    + rewrite (bind_return _ _ _ _ _ Hget). by left.
    + rewrite (bind_raise _ _ _ _ _ Hget). by left.
  - (* update *)
    unfold user_views.UserProfileViewSet.update.
    destruct (profile_get_object_cases request pk db)
      as [(user & k & u & Hu & _ & Hk & Hallowed & Hget)|[exc Hget]].
    2:{ rewrite (bind_raise _ _ _ _ _ Hget). by left. }
    rewrite (bind_return _ _ _ _ _ Hget).
    destruct (is_valid_cases user_serializers.UserUpdateSerializer.fields
                false (Request.data request) db)
      as [[validated_data Hvalid]|[errors Hvalid]].
    2:{ rewrite (bind_raise _ _ _ _ _ Hvalid). by left. }
    rewrite (bind_return _ _ _ _ _ Hvalid).
    destruct (UserUpdateSerializer_update_frame _ _ _ _
                {| models.pk := k; models.row := u |} _ db Hvalid)
      as (u' & Hupdate & Hname & Hstaff & Hactive & Hsuper & _).
    rewrite (bind_return _ _ _ _ _ Hupdate). simpl.
    right. right. left. exists user, k, u, u'. by split_and!.
  - (* partial update *)
    unfold user_views.UserProfileViewSet.update.
    destruct (profile_get_object_cases request pk db)
      as [(user & k & u & Hu & _ & Hk & Hallowed & Hget)|[exc Hget]].
    2:{ rewrite (bind_raise _ _ _ _ _ Hget). by left. }
    rewrite (bind_return _ _ _ _ _ Hget).
    destruct (is_valid_cases user_serializers.UserUpdateSerializer.fields
                true (Request.data request) db)
      as [[validated_data Hvalid]|[errors Hvalid]].
    2:{ rewrite (bind_raise _ _ _ _ _ Hvalid). by left. }
    rewrite (bind_return _ _ _ _ _ Hvalid).
    destruct (UserUpdateSerializer_update_frame _ _ _ _
                {| models.pk := k; models.row := u |} _ db Hvalid)
      as (u' & Hupdate & Hname & Hstaff & Hactive & Hsuper & _).
    rewrite (bind_return _ _ _ _ _ Hupdate). simpl.
    right. right. left. exists user, k, u, u'. by split_and!.
  - (* destroy *)
    unfold user_views.UserProfileViewSet.destroy.
    destruct (profile_get_object_cases request pk db)
      as [(user & k & u & Hu & _ & Hk & Hallowed & Hget)|[exc Hget]].
    2:{ rewrite (bind_raise _ _ _ _ _ Hget). by left. }
    rewrite !(bind_return _ _ _ _ _ Hget). simpl.
    right. right. right. exists user, k, u. by split_and!.
  - (* list *)
    unfold user_views.UserListViewSet.list, user_views.UserListViewSet.get_queryset.
    unfold mbind, M_bind, read_db, mret, M_ret.
    repeat case_match; simplify_eq; by left.
Qed.

(** X13. Deleting a profile cascades: when a user who is staff, or the
    user themselves, deletes the stored user [k], the answer is 204, user
    [k] is gone, the tasks left are exactly those that [k] did not own, and
    every other user stays as they were. *)
Theorem user_delete_cascades `{Framework} (P : models.Instance models.User)
    (request : Request.t) (db : models.Database) (k : Z) (U : models.User) :
  Request.user request = Some P →
  models.User_objects db !! k = Some U →
  models.is_staff (models.row P) = true ∨ k = models.pk P →
  let result :=
    user_urls.serve (user_urls.user_profile (text.str k)) DELETE request db in
  Response.status_code result.1 = 204
  ∧ models.User_objects result.2 = delete k (models.User_objects db)
  ∧ (∀ j t, models.Task_objects result.2 !! j = Some t
            ↔ models.Task_objects db !! j = Some t ∧ models.user t ≠ k).
Proof.
  intros Hu HU Hallowed result. unfold result.
  rewrite (profile_destroy_run request P k U db Hu HU).
  assert (models.is_staff (models.row P) || bool_decide (k = models.pk P)
          = true) as ->.
  { rewrite orb_true_iff, bool_decide_eq_true. tauto. }
  simpl. split_and!; [done..|].
  intros j t. by rewrite map_lookup_filter_Some.
Qed.

(** Alice deletes her profile: her three tasks go, Bob's task 4 stays. *)
Lemma user_delete_cascades_witness :
  let result :=
    user_urls.serve (H := sample.framework) (user_urls.user_profile "1") DELETE
      (sample.request sample.alice [] []) sample.db in
  models.User_objects result.2 !! 1 = None
  ∧ models.Task_objects result.2 !! 1 = None
  ∧ models.Task_objects result.2 !! 4 = Some sample.report.
Proof.
  destruct (user_delete_cascades (H := sample.framework) sample.alice
              (sample.request sample.alice [] []) sample.db 1
              (models.row sample.alice))
    as (_ & Husers & Htasks).
  - reflexivity.
  - reflexivity.
  - by right.
  - split_and!.
    + reflexivity.
    + reflexivity.
    + refine (proj2 (Htasks 4 sample.report) (conj eq_refl _)).
      vm_compute. discriminate.
Defined.

(** X14. No request to the user API, whatever its route, method, sender
    and payload, changes the [is_staff], [is_superuser], [is_active] or
    [username] of a stored user, and a user that a request adds is neither
    staff nor superuser: the API cannot grant privileges. *)
Theorem user_api_never_grants_privileges `{Framework}
    (route : user_urls.Route) (method : Method) (request : Request.t)
    (db : models.Database) (k : Z) (u' : models.User) :
  models.User_objects (user_urls.serve route method request db).2 !! k
  = Some u' →
  match models.User_objects db !! k with
  | Some u =>
      models.is_staff u' = models.is_staff u
      ∧ models.is_superuser u' = models.is_superuser u
      ∧ models.is_active u' = models.is_active u
      ∧ models.username u' = models.username u
  | None => models.is_staff u' = false ∧ models.is_superuser u' = false
  end.
Proof.
  destruct (user_serve_effect route method request db)
    as [->|[(u0 & Hstaff & Hsuper & Hfresh & -> & _)
      |[(user & k' & u & u1 & _ & _ & Hk' & Hname & Hst & Hact & Hsup & -> & _)
       |(user & k' & u & _ & _ & Hk' & ->)]]].
  - intros ->. done.
  - destruct (decide (models.next_pk (models.User_objects db) = k)) as [<-|Hne].
    + rewrite lookup_insert_eq, Hfresh. by intros [= <-].
    + rewrite lookup_insert_ne by done. intros ->. done.
  - destruct (decide (k' = k)) as [->|Hne].
    + rewrite lookup_insert_eq, Hk'. by intros [= <-].
    + rewrite lookup_insert_ne by done. intros ->. done.
  - simpl. destruct (decide (k' = k)) as [->|Hne].
    + by rewrite lookup_delete_eq.
    + rewrite lookup_delete_ne by done. intros ->. done.
Qed.

(** Carol, who is staff, sends Bob's profile a full update that asks for
    staff rights: Bob's password changes, his flags do not. *)
Lemma user_api_never_grants_privileges_witness :
  ∃ u',
    models.User_objects
      (user_urls.serve (H := sample.framework) (user_urls.user_profile "2") PUT
         (sample.request sample.carol
            [("password", VStr "a long password"); ("is_staff", VBool true)] [])
         sample.db).2 !! 2 = Some u'
    ∧ models.password u' = "hash$a long password"
    ∧ models.is_staff u' = false.
Proof.
  eexists. split; [reflexivity|]. split; [reflexivity|].
  apply (user_api_never_grants_privileges (H := sample.framework)
           (user_urls.user_profile "2") PUT
           (sample.request sample.carol
              [("password", VStr "a long password"); ("is_staff", VBool true)] [])
           sample.db 2).
  reflexivity.
Defined.

(** X15. A request to the user API by somebody who is not staff (or by
    nobody) leaves every other stored user as they were, and leaves the
    tasks of every other user as they were. *)
Theorem user_requests_leave_other_users `{Framework}
    (route : user_urls.Route) (method : Method) (request : Request.t)
    (db : models.Database) (k : Z) (u : models.User) :
  models.User_objects db !! k = Some u →
  (∀ user, Request.user request = Some user →
           models.is_staff (models.row user) = false ∧ models.pk user ≠ k) →
  models.User_objects (user_urls.serve route method request db).2 !! k = Some u
  ∧ ∀ j t, models.Task_objects db !! j = Some t → models.user t = k →
           models.Task_objects (user_urls.serve route method request db).2 !! j
           = Some t.
Proof.
  intros Hk Hother.
  destruct (user_serve_effect route method request db)
    as [->|[(u0 & _ & _ & Hfresh & -> & ->)
      |[(user & k' & u0 & u1 & Hu & Hallowed & Hk' & _ & _ & _ & _ & -> & ->)
       |(user & k' & u0 & Hu & Hallowed & Hk' & ->)]]].
  - done.
  - split; [|done]. rewrite lookup_insert_ne; [done|]. intros <-. congruence.
  - destruct (Hother user Hu) as [Hstaff Hne].
    split; [|done]. rewrite lookup_insert_ne; [done|].
    destruct Hallowed as [? | ->]; congruence.
  - destruct (Hother user Hu) as [Hstaff Hne].
    assert (k' ≠ k) as Hk'k by (destruct Hallowed as [? | ->]; congruence).
    simpl. split.
    + by rewrite lookup_delete_ne.
    + intros j t Hj Hown. apply map_lookup_filter_Some. split; [done|].
      simpl. congruence.
Qed.

(** Bob tries to delete Alice's profile. *)
Lemma user_requests_leave_other_users_witness :
  models.User_objects
    (user_urls.serve (H := sample.framework) (user_urls.user_profile "1") DELETE
       (sample.request sample.bob [] []) sample.db).2 !! 1
  = Some (models.row sample.alice).
Proof.
  apply (user_requests_leave_other_users (H := sample.framework)
           (user_urls.user_profile "1") DELETE
           (sample.request sample.bob [] []) sample.db 1
           (models.row sample.alice)).
  - reflexivity.
  - intros user [= <-]. split; [reflexivity|discriminate].
Defined.

(** ** What the user API shows *)

Lemma UserSerializer_data `{Framework} instance :
  user_serializers.UserSerializer.data instance
  = list_to_map
      [("id", VInt (models.pk instance));
       ("username", VStr (models.username (models.row instance)));
       ("email", VStr (models.email (models.row instance)));
       ("first_name", VStr (models.first_name (models.row instance)));
       ("last_name", VStr (models.last_name (models.row instance)))].
Proof. reflexivity. Qed.

Lemma UserUpdateSerializer_data `{Framework} instance :
  user_serializers.UserUpdateSerializer.data instance
  = list_to_map
      [("email", VStr (models.email (models.row instance)));
       ("first_name", VStr (models.first_name (models.row instance)));
       ("last_name", VStr (models.last_name (models.row instance)))].
Proof. reflexivity. Qed.

(** The body of an answer of the user API is empty, a message, a set of
    field errors, the representation of one user by one of the three
    serializers, or a collection of [UserSerializer] representations. *)
Lemma user_serve_body `{Framework} route method request db :
  match Response.data (user_urls.serve route method request db).1 with
  | Data fields =>
      ∃ instance,
        fields = user_serializers.UserSerializer.data instance
        ∨ fields = user_serializers.UserCreateSerializer.data instance
        ∨ fields = user_serializers.UserUpdateSerializer.data instance
  | Results _ results =>
      ∀ k entry, results !! k = Some entry →
                 ∃ instance, entry = user_serializers.UserSerializer.data instance
  | _ => True
  end.
Proof.
  unfold user_urls.serve, dispatch.
  destruct (check_permissions (user_urls.permission_classes route) request db)
    as [[[]|exc] db1] eqn:Hperm.
  2:{ rewrite (bind_raise _ _ _ _ _ Hperm). by destruct exc. }
  rewrite (bind_return _ _ _ _ _ Hperm).
  assert (db1 = db) as ->.
  { revert Hperm. destruct route; simpl; unfold permission_denied, raise,
      mret, M_ret; repeat case_match; by intros [= <-]. }
  destruct (user_urls.handler route method request) as [h|] eqn:Hh; [|done].
  destruct route as [|pk|], method; simpl in Hh; simplify_eq.
  - pose proof (register_run request db) as Hrun.
    unfold user_urls.serve, dispatch in Hrun.
    rewrite (bind_return _ _ _ _ _ Hperm) in Hrun. simpl in Hrun. rewrite Hrun.
    destruct (serializers.is_valid _ _ _ db) as [[validated_data|exc] db1].
    + simpl. eexists. right. left. reflexivity.
    + by destruct exc.
  - unfold user_views.UserProfileViewSet.retrieve.
    destruct (negb _ && negb _); [done|].
    destruct (profile_get_object_cases request pk db)
      as [(user & k & u & _ & _ & _ & _ & Hget)|[exc Hget]].
    + rewrite (bind_return _ _ _ _ _ Hget). simpl. eexists. by left.
    + rewrite (bind_raise _ _ _ _ _ Hget). by destruct exc.
  - unfold user_views.UserProfileViewSet.update.
    destruct (profile_get_object_cases request pk db)
      as [(user & k & u & _ & _ & _ & _ & Hget)|[exc Hget]].
    2:{ rewrite (bind_raise _ _ _ _ _ Hget). by destruct exc. }
    rewrite (bind_return _ _ _ _ _ Hget).
    destruct (is_valid_cases user_serializers.UserUpdateSerializer.fields
                false (Request.data request) db)
      as [[validated_data Hvalid]|[errors Hvalid]].
    2:{ by rewrite (bind_raise _ _ _ _ _ Hvalid). }
    rewrite (bind_return _ _ _ _ _ Hvalid).
    simpl. eexists. right. right. reflexivity.
  - unfold user_views.UserProfileViewSet.update.
    destruct (profile_get_object_cases request pk db)
      as [(user & k & u & _ & _ & _ & _ & Hget)|[exc Hget]].
    2:{ rewrite (bind_raise _ _ _ _ _ Hget). by destruct exc. }
    rewrite (bind_return _ _ _ _ _ Hget).
    destruct (is_valid_cases user_serializers.UserUpdateSerializer.fields
                true (Request.data request) db)
      as [[validated_data Hvalid]|[errors Hvalid]].
    2:{ by rewrite (bind_raise _ _ _ _ _ Hvalid). }
    rewrite (bind_return _ _ _ _ _ Hvalid).
    simpl. eexists. right. right. reflexivity.
  - unfold user_views.UserProfileViewSet.destroy.
    destruct (profile_get_object_cases request pk db)
      as [(user & k & u & _ & _ & _ & _ & Hget)|[exc Hget]].
    + by rewrite !(bind_return _ _ _ _ _ Hget).
    + rewrite (bind_raise _ _ _ _ _ Hget). by destruct exc.
  - unfold user_views.UserListViewSet.list.
    destruct (user_views.UserListViewSet.get_queryset request db)
      as [[queryset|exc] db1] eqn:Hqs.
    + rewrite (bind_return _ _ _ _ _ Hqs). simpl.
      intros k entry. rewrite map_lookup_imap.
      destruct (_ !! k) as [u|]; [|done]. simpl. intros [= <-]. by eexists.
    + rewrite (bind_raise _ _ _ _ _ Hqs). by destruct exc.
Qed.

(** X16. No answer of the user API, to any request, carries a password
    or a role flag: a body that represents a user, alone or in a list, has
    no [password], [is_staff] or [is_superuser] entry. *)
Theorem user_api_never_shows_password `{Framework} (route : user_urls.Route)
    (method : Method) (request : Request.t) (db : models.Database) :
  let hidden (fields : gmap string Value) :=
    fields !! "password" = None ∧ fields !! "is_staff" = None
    ∧ fields !! "is_superuser" = None in
  match Response.data (user_urls.serve route method request db).1 with
  | Data fields => hidden fields
  | Results _ results => ∀ k entry, results !! k = Some entry → hidden entry
  | _ => True
  end.
Proof.
  intros hidden. pose proof (user_serve_body route method request db) as Hbody.
  destruct (Response.data _) as [| | |fields|n results]; try done.
  - destruct Hbody as [instance [->|[->| ->]]]; by split_and!.
  - intros k entry Hk. destruct (Hbody k entry Hk) as [instance ->].
    by split_and!.
Qed.

(** ** Registration: what is stored and what is reported *)








(** ** Profiles that are not there *)




(** ** The list of users, with its filters *)



(** ** Partial updates of a profile *)






(** ** Dates that do not parse *)



